(** * Real-time synchronisation core of the data-logger example

    A shallow embedding of

    - [examples/data-logger/public/app.js]: the browser console (activity
      log, reconnection controller, reconciliation state model), and
    - the WebSocket proxy of the example web server (the
      [wss.on('connection')] handler),

    followed by the properties of the specification that concern them.

    JavaScript values are the values [JSON.parse] can return, plus
    [undefined].  Handlers are functions in a state-and-exception monad over
    the module-level variables of [app.js]; everything a handler does to the
    outside world (console, sockets, timers, page) is recorded in a trace.
    What the platform decides (the wall clock, the text of engine error
    messages, whether a constructor throws, the [readyState] of a socket at
    the moment it is read) is an input of the model. *)

From Stdlib Require Import String Ascii List Bool Arith NArith Lia.
From Stdlib Require Import Floats.SpecFloat.
Import ListNotations.
Open Scope string_scope.

(* ================================================================== *)
(** * JavaScript values *)
(* ================================================================== *)

Module JS.

(** The values produced by [JSON.parse], and [undefined].  A number is an
    IEEE-754 double.  An object is the list of its own properties, each key
    listed once. *)
#[warnings="-register-all"]
Inductive jsval : Type :=
| JUndefined
| JNull
| JBool (b : bool)
| JNum (f : spec_float)
| JStr (s : string)
| JArr (elts : list jsval)
| JObj (props : list (string * jsval)).

(** An exception value: [error.name] and [error.message]. *)
Record JsError : Type := mkError { errName : string; errMessage : string }.

(** ToBoolean. *)
Definition truthy (v : jsval) : bool :=
  match v with
  | JUndefined | JNull => false
  | JBool b => b
  | JNum (S754_zero _) | JNum S754_nan => false
  | JNum _ => true
  | JStr s => negb (String.eqb s "")
  | JArr _ | JObj _ => true
  end.

(** [a === b].  Objects and arrays are compared by identity; every two
    operands the program compares come from different places of parsed
    messages (or from different messages), hence are different objects. *)
Definition strict_eq (a b : jsval) : bool :=
  match a, b with
  | JUndefined, JUndefined => true
  | JNull, JNull => true
  | JBool x, JBool y => Bool.eqb x y
  | JNum x, JNum y => SFeqb x y
  | JStr x, JStr y => String.eqb x y
  | _, _ => false
  end.

(** [a || b]. *)
Definition or_else (a b : jsval) : jsval := if truthy a then a else b.

(** Own property [k] of an object, [undefined] when there is none. *)
Definition lookup (k : string) (props : list (string * jsval)) : jsval :=
  match find (fun p => String.eqb (fst p) k) props with
  | Some p => snd p
  | None => JUndefined
  end.

Definition hasOwn (k : string) (props : list (string * jsval)) : bool :=
  existsb (fun p => String.eqb (fst p) k) props.

(** [v.k] (or [v[k]]): [None] is the TypeError raised on [null] and
    [undefined].  Used only with the property names the program reads
    ([type], [devices], [device], [spec], [status], [appVersion], ...), none
    of which a primitive, an array or [Object.prototype] provides. *)
Definition get (v : jsval) (k : string) : option jsval :=
  match v with
  | JUndefined | JNull => None
  | JObj props => Some (lookup k props)
  | _ => Some JUndefined
  end.

(** [v?.k]. *)
Definition optGet (v : jsval) (k : string) : jsval :=
  match get v k with
  | Some x => x
  | None => JUndefined
  end.

Section ToString.

(** [Number::toString], left to the engine. *)
Variable numberToString : spec_float -> string.

(** ToString, as applied by template literals, by [+] on a string and by
    the DOM to a value assigned to [textContent].  [None] is the TypeError
    of OrdinaryToPrimitive: an object parsed from JSON whose own
    [toString] property shadows [Object.prototype.toString] has no
    callable [toString], and [Object.prototype.valueOf] returns the
    object itself.  An array is joined with commas, [null] and
    [undefined] elements giving the empty string. *)
Fixpoint toStr (v : jsval) : option string :=
  match v with
  | JUndefined => Some "undefined"
  | JNull => Some "null"
  | JBool true => Some "true"
  | JBool false => Some "false"
  | JNum f => Some (numberToString f)
  | JStr s => Some s
  | JArr elts =>
      let element (x : jsval) : option string :=
        match x with
        | JUndefined | JNull => Some ""
        | _ => toStr x
        end in
      (fix join (l : list jsval) : option string :=
         match l with
         | [] => Some ""
         | [x] => element x
         | x :: rest =>
             match element x, join rest with
             | Some a, Some b => Some (a ++ "," ++ b)
             | _, _ => None
             end
         end) elts
  | JObj props =>
      if hasOwn "toString" props then None else Some "[object Object]"
  end.

End ToString.

End JS.

Import JS.

(** [WebSocket.readyState], in the browser and in the [ws] package alike. *)
Module WebSocket.

Inductive ReadyState : Type := CONNECTING | OPEN | CLOSING | CLOSED.

(** [readyState === WebSocket.OPEN]. *)
Definition isOPEN (r : ReadyState) : bool :=
  match r with
  | OPEN => true
  | _ => false
  end.

End WebSocket.

(* ================================================================== *)
(** * The browser console: [examples/data-logger/public/app.js] *)
(* ================================================================== *)

Module App.

Import WebSocket.

(** An element of [activityLog]: [{ time, message, type }]. *)
Record Entry : Type := mkEntry { time : string; message : string; type : string }.

(** The two functions handed to [setTimeout]: the anonymous watchdog of
    [connectWebSocket], and [connectWebSocket] itself. *)
Inductive Callback : Type := connectTimeout | reconnect.

(** What a handler does to the world outside the module's variables. *)
Inductive Effect : Type :=
| console_log (label : string)
| console_error (label : string)
| new_WebSocket (sock : nat) (url : jsval)
| ws_close (sock : nat)
| setTimeout (id : nat) (callback : Callback) (ms : N)
| clearTimeout (id : nat)
| location_reload
| connection_status (connected : bool)
| flash_reconcile
| uncaught (e : JsError).

(** The module-level variables ([config.reconcilerWsUrl], [config] being
    the object [loadConfig] or the initializer left, [ws], [wsConnecting],
    [currentDevice], [activityLog]), the one piece of the
    page the properties read ([#sync-arrow]: [textContent] and [className]),
    counters naming the sockets and timers created so far and the clock
    readings taken, and the trace of effects, newest first. *)
Record State : Type := mkState {
  reconcilerWsUrl : jsval;
  ws : option nat;
  wsConnecting : bool;
  currentDevice : option (jsval * jsval);
  activityLog : list Entry;
  syncArrow : string * string;
  sockets : nat;
  timers : nat;
  dateReads : nat;
  trace : list Effect
}.

Definition set_ws (x : option nat) (s : State) : State :=
  mkState (reconcilerWsUrl s) x (wsConnecting s) (currentDevice s)
          (activityLog s) (syncArrow s) (sockets s) (timers s) (dateReads s)
          (trace s).

Definition set_wsConnecting (x : bool) (s : State) : State :=
  mkState (reconcilerWsUrl s) (ws s) x (currentDevice s)
          (activityLog s) (syncArrow s) (sockets s) (timers s) (dateReads s)
          (trace s).

Definition set_currentDevice (x : option (jsval * jsval)) (s : State) : State :=
  mkState (reconcilerWsUrl s) (ws s) (wsConnecting s) x
          (activityLog s) (syncArrow s) (sockets s) (timers s) (dateReads s)
          (trace s).

Definition set_activityLog (x : list Entry) (s : State) : State :=
  mkState (reconcilerWsUrl s) (ws s) (wsConnecting s) (currentDevice s)
          x (syncArrow s) (sockets s) (timers s) (dateReads s) (trace s).

Definition set_syncArrow (x : string * string) (s : State) : State :=
  mkState (reconcilerWsUrl s) (ws s) (wsConnecting s) (currentDevice s)
          (activityLog s) x (sockets s) (timers s) (dateReads s) (trace s).

Definition set_sockets (x : nat) (s : State) : State :=
  mkState (reconcilerWsUrl s) (ws s) (wsConnecting s) (currentDevice s)
          (activityLog s) (syncArrow s) x (timers s) (dateReads s) (trace s).

Definition set_timers (x : nat) (s : State) : State :=
  mkState (reconcilerWsUrl s) (ws s) (wsConnecting s) (currentDevice s)
          (activityLog s) (syncArrow s) (sockets s) x (dateReads s) (trace s).

Definition set_dateReads (x : nat) (s : State) : State :=
  mkState (reconcilerWsUrl s) (ws s) (wsConnecting s) (currentDevice s)
          (activityLog s) (syncArrow s) (sockets s) (timers s) x (trace s).

Definition set_trace (x : list Effect) (s : State) : State :=
  mkState (reconcilerWsUrl s) (ws s) (wsConnecting s) (currentDevice s)
          (activityLog s) (syncArrow s) (sockets s) (timers s) (dateReads s) x.

(** ** The monad of handlers

    A computation takes the state and returns the state together with a
    completion: a value, or a thrown exception.  Assignments made before a
    throw persist, as they do in JavaScript. *)

Inductive Completion (A : Type) : Type :=
| Normal (a : A)
| Throw (e : JsError).
Arguments Normal {A} a.
Arguments Throw {A} e.

Definition M (A : Type) : Type := State -> Completion A * State.

Definition ret {A : Type} (a : A) : M A := fun s => (Normal a, s).

Definition throw {A : Type} (e : JsError) : M A := fun s => (Throw e, s).

Definition bind {A B : Type} (c : M A) (k : A -> M B) : M B :=
  fun s =>
    match c s with
    | (Normal a, s') => k a s'
    | (Throw e, s') => (Throw e, s')
    end.

Definition getState : M State := fun s => (Normal s, s).

Definition modify (f : State -> State) : M unit := fun s => (Normal tt, f s).

(** [try { body } catch (error) { handler }]. *)
Definition tryCatch (body : M unit) (handler : JsError -> M unit) : M unit :=
  fun s =>
    match body s with
    | (Normal a, s') => (Normal a, s')
    | (Throw e, s') => handler e s'
    end.

Definition emit (e : Effect) : M unit :=
  modify (fun s => set_trace (e :: trace s) s).

(** The state a handler leaves behind. *)
Definition exec {A : Type} (c : M A) (s : State) : State := snd (c s).

Declare Scope js_scope.
Delimit Scope js_scope with js.
Notation "x <- c1 ;; c2" := (bind c1 (fun x => c2))
  (at level 61, c1 at next level, right associativity) : js_scope.
Notation "c1 ;; c2" := (bind c1 (fun _ => c2))
  (at level 61, right associativity) : js_scope.
Open Scope js_scope.

(** ** What the platform provides *)

Record Host : Type := mkHost {
  (** the [n]-th evaluation of
      [new Date().toLocaleTimeString('en-US', { hour12: false })] *)
  toLocaleTimeString : nat -> string;
  (** [Number::toString] *)
  numberToString : spec_float -> string;
  (** [/^((?!chrome|android).)*safari/i.test(navigator.userAgent)] *)
  isSafari : bool;
  (** [new WebSocket(url)]: the exception it throws, if it throws *)
  webSocketRejects : jsval -> option JsError;
  (** the TypeError of reading property [k] of [null] or [undefined] *)
  nullReadError : string -> JsError;
  (** the TypeError of converting an object to a primitive value *)
  toPrimitiveError : JsError
}.

Section Handlers.

Variable host : Host.

(** [v.k] as a computation. *)
Definition getM (v : jsval) (k : string) : M jsval :=
  match get v k with
  | Some x => ret x
  | None => throw (nullReadError host k)
  end.

(** ToString as a computation. *)
Definition toStrM (v : jsval) : M string :=
  match toStr (numberToString host) v with
  | Some s => ret s
  | None => throw (toPrimitiveError host)
  end.

(** ** Activity logging *)

(** [activityLog.unshift(entry); if (activityLog.length > 50) activityLog.pop();] *)
Definition unshift_capped (entry : Entry) (log : list Entry) : list Entry :=
  let log' := entry :: log in
  if (50 <? length log')%nat then removelast log' else log'.

(** [renderActivityLog] writes the first 15 entries into [#activity-log];
    it reads the log and changes nothing the model keeps. *)
Definition renderActivityLog : M unit := ret tt.

(** [logActivity(message, type = 'info')]. *)
Definition logActivity (message type : string) : M unit :=
  s <- getState ;;
  let time := toLocaleTimeString host (dateReads s) in
  modify (set_dateReads (S (dateReads s))) ;;
  modify (fun s => set_activityLog
                     (unshift_capped (mkEntry time message type) (activityLog s)) s) ;;
  renderActivityLog.

(** ** Rendering

    The page ([index.html]) is taken to provide every element the script
    looks up.  Of what rendering writes,
    the model keeps the sync indicator; of the rest it keeps whether the
    conversion of a value to text throws, since a throw ends the caller. *)

(** [renderFlatState(data)]. *)
Definition renderFlatState (data : jsval) : M unit :=
  if negb (truthy data) then ret tt
  else
    _ <- toStrM (or_else (optGet data "appName") (JStr "--")) ;;
    _ <- toStrM (or_else (optGet data "appVersion") (JStr "?")) ;;
    _ <- toStrM (or_else (optGet data "logInterval") (JNum (S754_zero false))) ;;
    ret tt.

(** The sync indicator [renderStateComparison] writes to [#sync-arrow]:
    [(textContent, className)]. *)
Definition syncIndicator (spec status : jsval) : string * string :=
  let desiredVersion := optGet spec "appVersion" in
  let actualVersion := optGet status "appVersion" in
  let isSynced := truthy status && strict_eq desiredVersion actualVersion in
  if negb (truthy status) then ("?", "")
  else if isSynced then ("=", "synced")
  else ("→", "pending").

(** [renderStateComparison(spec, status)]. *)
Definition renderStateComparison (spec status : jsval) : M unit :=
  modify (set_syncArrow (syncIndicator spec status)) ;;
  renderFlatState spec ;;
  (if truthy status then renderFlatState status else ret tt).

(** [renderDataLoggerSVG(spec, status)], called with a truthy [spec].
    [spec?.logInterval > 0] converts [logInterval] to a primitive, which
    throws exactly when ToString does; once it has not thrown, the later
    [${spec.logInterval || 5}] cannot throw either, whatever [isLogging]
    is. *)
Definition renderDataLoggerSVG (spec status : jsval) : M unit :=
  let isOnline := optGet spec "enabled" in
  _ <- toStrM (optGet spec "logInterval") ;;
  (if truthy isOnline then
     _ <- toStrM (or_else (optGet spec "appName") (JStr "App")) ;;
     _ <- toStrM (or_else (optGet spec "appVersion") (JStr "?")) ;;
     ret tt
   else ret tt) ;;
  _ <- toStrM (or_else (optGet spec "name") (JStr "data-logger-1")) ;;
  ret tt.

(** [renderDevice(spec, status)]. *)
Definition renderDevice (spec status : jsval) : M unit :=
  if negb (truthy spec) then ret tt
  else
    _ <- toStrM (or_else (optGet spec "name") (JStr "--")) ;;
    _ <- toStrM (or_else (optGet spec "location") (JStr "--")) ;;
    renderDataLoggerSVG spec status.

(** [flashReconcile()]. *)
Definition flashReconcile : M unit := emit flash_reconcile.

(** [updateConnectionStatus(connected)]. *)
Definition updateConnectionStatus (connected : bool) : M unit :=
  emit (connection_status connected).

(** ** The reconciliation state model *)

(** [updateDevice(spec, status)]. *)
Definition updateDevice (spec status : jsval) : M unit :=
  s <- getState ;;
  let oldSpec := match currentDevice s with
                 | Some d => fst d
                 | None => JUndefined
                 end in
  modify (set_currentDevice (Some (spec, status))) ;;
  let oldVersion := optGet oldSpec "appVersion" in
  let newVersion := optGet spec "appVersion" in
  let actualVersion := optGet status "appVersion" in
  (if truthy oldVersion && truthy newVersion
      && negb (strict_eq oldVersion newVersion)
   then
     o <- toStrM oldVersion ;;
     n <- toStrM newVersion ;;
     logActivity ("Desired version: v" ++ o ++ " → v" ++ n) "info"
   else ret tt) ;;
  let isSynced := truthy status && strict_eq newVersion actualVersion in
  (if isSynced && truthy oldVersion && negb (strict_eq oldVersion newVersion)
   then
     n <- toStrM newVersion ;;
     logActivity ("Deployed v" ++ n ++ " ✓") "success"
   else if negb isSynced && truthy actualVersion
           && negb (strict_eq newVersion actualVersion)
   then
     a <- toStrM actualVersion ;;
     n <- toStrM newVersion ;;
     logActivity ("Reconciling: v" ++ a ++ " → v" ++ n) "reconciling"
   else ret tt) ;;
  renderDevice spec status ;;
  renderStateComparison spec status.

(** The outcome of [JSON.parse(event.data)]. *)
Inductive Parsed : Type :=
| SyntaxError (e : JsError)
| Value (v : jsval).

Definition JSON_parse (data : Parsed) : M jsval :=
  match data with
  | SyntaxError e => throw e
  | Value v => ret v
  end.

(** [ws.onmessage]. *)
Definition ws_onmessage (data : Parsed) : M unit :=
  tryCatch
    (message <- JSON_parse data ;;
     emit (console_log "WebSocket message received:") ;;
     type <- getM message "type" ;;
     if strict_eq type (JStr "init") then
       devices <- getM message "devices" ;;
       let device := optGet devices "data-logger-1" in
       if truthy device then
         logActivity "Connected - received device state" "info" ;;
         spec <- getM device "spec" ;;
         status <- getM device "status" ;;
         updateDevice spec status
       else ret tt
     else if strict_eq type (JStr "update") then
       device <- getM message "device" ;;
       text <- toStrM device ;;
       logActivity ("State updated: " ++ text) "success" ;;
       spec <- getM message "spec" ;;
       status <- getM message "status" ;;
       updateDevice spec status ;;
       flashReconcile
     else emit (console_log "Unknown message type:"))
    (fun error =>
       emit (console_error "Error processing WebSocket message:") ;;
       logActivity ("Error: " ++ errMessage error) "error").

(** ** The reconnection controller

    [readyState sock] is what [ws.readyState] evaluates to while the
    handler runs, for the socket [sock]. *)

(** [connectWebSocket()]. *)
Definition connectWebSocket (readyState : nat -> ReadyState) : M unit :=
  s <- getState ;;
  if wsConnecting s
     || match ws s with
        | Some sock => isOPEN (readyState sock)
        | None => false
        end
  then ret tt
  else
    let wsUrl := reconcilerWsUrl s in
    if negb (truthy wsUrl) then
      emit (console_error "No reconcilerWsUrl in config")
    else
      emit (console_log "Connecting to WebSocket:") ;;
      modify (set_wsConnecting true) ;;
      match webSocketRejects host wsUrl with
      | Some error =>
          emit (console_error "Failed to create WebSocket:") ;;
          modify (set_wsConnecting false)
      | None =>
          modify (fun s => set_sockets (S (sockets s)) (set_ws (Some (sockets s)) s)) ;;
          emit (new_WebSocket (sockets s) wsUrl) ;;
          modify (set_timers (S (timers s))) ;;
          emit (setTimeout (timers s) connectTimeout 1500%N)
      end.

(** The watchdog handed to [setTimeout(..., 1500)].  It reads the
    module-level [ws], not the socket of its own attempt. *)
Definition connectTimeout_fired (readyState : nat -> ReadyState) : M unit :=
  s <- getState ;;
  match ws s with
  | None => throw (nullReadError host "readyState")
  | Some sock =>
      if negb (isOPEN (readyState sock)) then
        emit (console_log "WebSocket connection timeout") ;;
        if isSafari host then
          emit (console_log "Safari detected, reloading page...") ;;
          emit location_reload
        else ret tt
      else ret tt
  end.

(** [ws.onopen], of the attempt whose watchdog is [timeoutId]. *)
Definition ws_onopen (timeoutId : nat) : M unit :=
  emit (clearTimeout timeoutId) ;;
  emit (console_log "WebSocket connected") ;;
  modify (set_wsConnecting false) ;;
  updateConnectionStatus true ;;
  logActivity "Connected to reconciler" "success".

(** [ws.onclose]. *)
Definition ws_onclose (timeoutId : nat) (code : N) : M unit :=
  emit (clearTimeout timeoutId) ;;
  emit (console_log "WebSocket closed:") ;;
  modify (set_wsConnecting false) ;;
  updateConnectionStatus false ;;
  logActivity "Disconnected from reconciler" "error" ;;
  s <- getState ;;
  modify (set_timers (S (timers s))) ;;
  emit (setTimeout (timers s) reconnect 2000%N).

(** [ws.onerror]. *)
Definition ws_onerror (timeoutId : nat) : M unit :=
  emit (clearTimeout timeoutId) ;;
  emit (console_error "WebSocket error") ;;
  modify (set_wsConnecting false).

(** The [pageshow] listener. *)
Definition pageshow (persisted : bool) (readyState : nat -> ReadyState) : M unit :=
  if persisted then
    emit (console_log "Page restored from bfcache, reconnecting WebSocket") ;;
    s <- getState ;;
    match ws s with
    | Some sock => emit (ws_close sock) ;; modify (set_ws None)
    | None => ret tt
    end ;;
    modify (set_wsConnecting false) ;;
    connectWebSocket readyState
  else ret tt.

(** ** The event loop *)

Inductive Event : Type :=
| Open (timeoutId : nat)
| Message (data : Parsed)
| Close (timeoutId : nat) (code : N)
| Error (timeoutId : nat)
| Timer (callback : Callback)
| PageShow (persisted : bool).

Definition handler (readyState : nat -> ReadyState) (ev : Event) : M unit :=
  match ev with
  | Open t => ws_onopen t
  | Message d => ws_onmessage d
  | Close t c => ws_onclose t c
  | Error t => ws_onerror t
  | Timer connectTimeout => connectTimeout_fired readyState
  | Timer reconnect => connectWebSocket readyState
  | PageShow p => pageshow p readyState
  end.

(** One turn of the event loop: the handler runs to completion; an
    exception nobody catches is reported and the loop goes on. *)
Definition step (s : State) (turn : (nat -> ReadyState) * Event) : State :=
  match handler (fst turn) (snd turn) s with
  | (Normal _, s') => s'
  | (Throw e, s') => set_trace (uncaught e :: trace s') s'
  end.

Definition run (turns : list ((nat -> ReadyState) * Event)) (s : State) : State :=
  fold_left step turns s.

(** The messages of a stream, delivered in order. *)
Definition deliver (messages : list Parsed) (s : State) : State :=
  fold_left (fun s d => exec (ws_onmessage d) s) messages s.

End Handlers.

(** ** Reasoning about handlers *)

(** [c] keeps [P]: whatever the completion, the state it leaves satisfies
    [P] if the state it started from did. *)
Definition Invariant {A : Type} (P : State -> Prop) (c : M A) : Prop :=
  forall s, P s -> P (snd (c s)).

(** Console output. *)
Definition is_console (e : Effect) : Prop :=
  match e with
  | console_log _ | console_error _ => True
  | _ => False
  end.

(** A value whose conversion to text cannot throw: a primitive. *)
Definition primitive (v : jsval) : bool :=
  match v with
  | JArr _ | JObj _ => false
  | _ => true
  end.

(** The pair [ws.onmessage] stores in [currentDevice], if it stores one:
    the handler read for what it assigns. *)
Definition stored (host : Host) (data : Parsed) : option (jsval * jsval) :=
  match data with
  | SyntaxError _ => None
  | Value message =>
      match get message "type" with
      | None => None
      | Some type =>
          if strict_eq type (JStr "init") then
            let device := optGet (optGet message "devices") "data-logger-1" in
            if truthy device
            then Some (optGet device "spec", optGet device "status")
            else None
          else if strict_eq type (JStr "update") then
            match toStr (numberToString host) (optGet message "device") with
            | Some _ => Some (optGet message "spec", optGet message "status")
            | None => None
            end
          else None
      end
  end.

(** The entries [logActivity] creates for a list of [(message, type)]
    arguments when the clock has been read [n] times before. *)
Fixpoint stamped (host : Host) (n : nat) (appends : list (string * string))
  : list Entry :=
  match appends with
  | [] => []
  | a :: rest =>
      mkEntry (toLocaleTimeString host n) (fst a) (snd a) :: stamped host (S n) rest
  end.

(** [logActivity] called once for each element of [appends]. *)
Definition appendAll (host : Host) (appends : list (string * string)) (s : State)
  : State :=
  fold_left (fun s a => exec (logActivity host (fst a) (snd a)) s) appends s.

(** Retry rounds: the 2 s timer fires and calls [connectWebSocket]; the
    socket of the new attempt then closes.  Each round is given by the
    watchdog id and the close code the [close] event carries. *)
Definition retryRounds (readyState : nat -> ReadyState) (rounds : list (nat * N))
  : list ((nat -> ReadyState) * Event) :=
  flat_map (fun r => [(readyState, Timer reconnect);
                      (readyState, Close (fst r) (snd r))]) rounds.

(** The retry timers in a trace. *)
Definition is_retry (e : Effect) : bool :=
  match e with
  | setTimeout _ reconnect 2000%N => true
  | _ => false
  end.

Definition is_new_WebSocket (e : Effect) : bool :=
  match e with
  | new_WebSocket _ _ => true
  | _ => false
  end.

End App.

(* ================================================================== *)
(** * The WebSocket proxy of the web server: [wss.on('connection', ...)] *)
(* ================================================================== *)

Module Proxy.

Import WebSocket.

(** [s.includes(sub)], for a non-empty [sub]. *)
Definition includes (s sub : string) : bool :=
  match String.index 0 sub s with
  | Some _ => true
  | None => false
  end.

(** The calls the handlers make on the two sockets, the timers and the
    console. *)
Inductive Call (Buffer : Type) : Type :=
| console_log (line : string)
| console_error (line : string)
| setTimeout_setupConnection (ms : N)
| new_WebSocket (url : string)
| setInterval (ms : N)
| clearInterval
| reconcilerWs_ping
| clientWs_ping
| clientWs_send (message : string)
| reconcilerWs_send (data : Buffer)
| reconcilerWs_close
| clientWs_close.
Arguments console_log {Buffer} line.
Arguments console_error {Buffer} line.
Arguments setTimeout_setupConnection {Buffer} ms.
Arguments new_WebSocket {Buffer} url.
Arguments setInterval {Buffer} ms.
Arguments clearInterval {Buffer}.
Arguments reconcilerWs_ping {Buffer}.
Arguments clientWs_ping {Buffer}.
Arguments clientWs_send {Buffer} message.
Arguments reconcilerWs_send {Buffer} data.
Arguments reconcilerWs_close {Buffer}.
Arguments clientWs_close {Buffer}.

(** What the handlers read of the two sockets while they run:
    [clientWs.readyState] and [reconcilerWs.readyState]. *)
Record Sockets : Type := mkSockets {
  clientWs : ReadyState;
  reconcilerWs : ReadyState
}.

(** One accepted browser connection.  [setupPending]: the 200 ms timer
    that will run [setupConnection] is scheduled.  [attached]:
    [setupConnection] has created [reconcilerWs] and registered the
    listeners.  [pingInterval]: the keepalive interval is scheduled.
    [calls]: the calls made so far, newest first. *)
Record Bridge (Buffer : Type) : Type := mkBridge {
  setupPending : bool;
  attached : bool;
  pingInterval : bool;
  calls : list (Call Buffer)
}.
Arguments mkBridge {Buffer} setupPending attached pingInterval calls.
Arguments setupPending {Buffer} b.
Arguments attached {Buffer} b.
Arguments pingInterval {Buffer} b.
Arguments calls {Buffer} b.

(** What reaches the bridge: its two timers and the events of the two
    sockets. *)
Inductive Event (Buffer : Type) : Type :=
| setup_timer
| ping_timer
| reconciler_open
| reconciler_message (data : Buffer)
| client_message (data : Buffer)
| client_close (code : N) (reason : string)
| reconciler_close (code : N) (reason : string)
| client_error (message : string)
| reconciler_error (message : string).
Arguments setup_timer {Buffer}.
Arguments ping_timer {Buffer}.
Arguments reconciler_open {Buffer}.
Arguments reconciler_message {Buffer} data.
Arguments client_message {Buffer} data.
Arguments client_close {Buffer} code reason.
Arguments reconciler_close {Buffer} code reason.
Arguments client_error {Buffer} message.
Arguments reconciler_error {Buffer} message.

Section Bridge.

(** A received frame, and [data.toString()]. *)
Variable Buffer : Type.
Variable toString : Buffer -> string.

(** [`ws://localhost:${config.reconcilerWsPort}`]. *)
Variable reconcilerUrl : string.

Definition call (c : Call Buffer) (b : Bridge Buffer) : Bridge Buffer :=
  mkBridge (setupPending b) (attached b) (pingInterval b) (c :: calls b).

(** [clearInterval(pingInterval)]. *)
Definition do_clearInterval (b : Bridge Buffer) : Bridge Buffer :=
  mkBridge (setupPending b) (attached b) false (clearInterval :: calls b).

(** [setupConnection]. *)
Definition setupConnection (io : Sockets) (b : Bridge Buffer) : Bridge Buffer :=
  if negb (isOPEN (clientWs io)) then
    call (console_log "  Browser disconnected before setup, skipping") b
  else
    mkBridge (setupPending b) true true
             (setInterval 15000%N :: new_WebSocket reconcilerUrl :: calls b).

(** The body of [wss.on('connection', (clientWs, req) => ...)];
    [userAgent] is [req.headers['user-agent']]. *)
Definition connection (userAgent : option string) (io : Sockets) : Bridge Buffer :=
  let userAgent := match userAgent with
                   | Some ua => if String.eqb ua "" then "unknown" else ua
                   | None => "unknown"
                   end in
  let isSafari := includes userAgent "Safari" && negb (includes userAgent "Chrome") in
  let b := mkBridge false false false
             [console_log "  Origin"; console_log "  User-Agent";
              console_log "Browser WebSocket connected"] in
  if isSafari then
    mkBridge true false false (setTimeout_setupConnection 200%N :: calls b)
  else setupConnection io b.

(** The keepalive callback. *)
Definition ping (io : Sockets) (b : Bridge Buffer) : Bridge Buffer :=
  let b := if isOPEN (reconcilerWs io) then call reconcilerWs_ping b else b in
  if isOPEN (clientWs io) then call clientWs_ping b else b.

(** The listeners registered by [setupConnection]. *)
Definition listener (io : Sockets) (ev : Event Buffer) (b : Bridge Buffer)
  : Bridge Buffer :=
  match ev with
  | setup_timer => b
  | ping_timer => if pingInterval b then ping io b else b
  | reconciler_open =>
      call (console_log "Connected to reconciler, proxying messages") b
  | reconciler_message data =>
      let message := toString data in
      if isOPEN (clientWs io) then call (clientWs_send message) b else b
  | client_message data =>
      if isOPEN (reconcilerWs io) then call (reconcilerWs_send data) b else b
  | client_close code reason =>
      call reconcilerWs_close
           (do_clearInterval (call (console_log "Browser disconnected") b))
  | reconciler_close code reason =>
      call clientWs_close
           (do_clearInterval (call (console_log "Reconciler disconnected") b))
  | client_error message =>
      call reconcilerWs_close (call (console_error "Browser WebSocket error:") b)
  | reconciler_error message =>
      call clientWs_close (call (console_error "Reconciler WebSocket error:") b)
  end.

(** One event: the setup timer runs [setupConnection] once; a socket event
    reaches a listener only after [setupConnection] has registered it.
    Before that an event finds no listener and is dropped.  This is what
    Node does for [message], [close] and [open]; an [error] event without
    a listener is thrown instead and ends the server, which a bridge has
    no state for: a statement about a bridge that is not attached is made
    for events other than [client_error]. *)
Definition handle (b : Bridge Buffer) (turn : Sockets * Event Buffer)
  : Bridge Buffer :=
  match snd turn with
  | setup_timer =>
      if setupPending b then
        setupConnection (fst turn)
          (mkBridge false (attached b) (pingInterval b) (calls b))
      else b
  | ev => if attached b then listener (fst turn) ev b else b
  end.

Definition run (turns : list (Sockets * Event Buffer)) (b : Bridge Buffer)
  : Bridge Buffer :=
  fold_left handle turns b.

(** How often a call satisfying [p] was made. *)
Definition count (p : Call Buffer -> bool) (b : Bridge Buffer) : nat :=
  length (filter p (calls b)).

Definition is_clearInterval (c : Call Buffer) : bool :=
  match c with clearInterval => true | _ => false end.

Definition is_reconcilerWs_close (c : Call Buffer) : bool :=
  match c with reconcilerWs_close => true | _ => false end.

Definition is_clientWs_close (c : Call Buffer) : bool :=
  match c with clientWs_close => true | _ => false end.

(** The teardown triggers among the events. *)
Definition is_close_event (turn : Sockets * Event Buffer) : bool :=
  match snd turn with
  | client_close _ _ | reconciler_close _ _ => true
  | _ => false
  end.

Definition is_client_trigger (turn : Sockets * Event Buffer) : bool :=
  match snd turn with
  | client_close _ _ | client_error _ => true
  | _ => false
  end.

Definition is_reconciler_trigger (turn : Sockets * Event Buffer) : bool :=
  match snd turn with
  | reconciler_close _ _ | reconciler_error _ => true
  | _ => false
  end.

(** 1 for a hit, 0 for a miss. *)
Definition bump (hit : bool) : nat := if hit then 1 else 0.

End Bridge.

Arguments call {Buffer} c b.
Arguments do_clearInterval {Buffer} b.
Arguments setupConnection {Buffer} reconcilerUrl io b.
Arguments connection {Buffer} reconcilerUrl userAgent io.
Arguments ping {Buffer} io b.
Arguments listener {Buffer} toString io ev b.
Arguments handle {Buffer} toString reconcilerUrl b turn.
Arguments run {Buffer} toString reconcilerUrl turns b.
Arguments count {Buffer} p b.
Arguments is_clearInterval {Buffer} c.
Arguments is_reconcilerWs_close {Buffer} c.
Arguments is_clientWs_close {Buffer} c.
Arguments is_close_event {Buffer} turn.
Arguments is_client_trigger {Buffer} turn.
Arguments is_reconciler_trigger {Buffer} turn.

End Proxy.

(* ================================================================== *)
(** * The specification's statements, in its own terms *)
(* ================================================================== *)

Module Spec.

Import WebSocket.

(** "The fields carried by a message referencing that device": an
    [update] names the device in [device]; an [init] has an entry for it in
    [devices]. *)
Definition carriedFor (d : string) (message : jsval) : option (jsval * jsval) :=
  if strict_eq (optGet message "type") (JStr "update") then
    if strict_eq (optGet message "device") (JStr d)
    then Some (optGet message "spec", optGet message "status")
    else None
  else if strict_eq (optGet message "type") (JStr "init") then
    match optGet message "devices" with
    | JObj props =>
        if hasOwn d props
        then Some (optGet (lookup d props) "spec", optGet (lookup d props) "status")
        else None
    | _ => None
    end
  else None.

(** "The most recently processed message referencing that device". *)
Definition mostRecentFor (d : string) (messages : list jsval)
  : option (jsval * jsval) :=
  fold_left (fun acc m => match carriedFor d m with
                          | Some p => Some p
                          | None => acc
                          end) messages None.

(** Last-write-wins per device, as the specification states it; the pair
    held for a device is read from the one place the program keeps a pair,
    [currentDevice]. *)
Definition last_write_wins_per_device (host : App.Host) : Prop :=
  forall (s : App.State) (messages : list jsval) (d : string) (p : jsval * jsval),
    mostRecentFor d messages = Some p ->
    App.currentDevice (App.deliver host (map App.Value messages) s) = Some p.

(** An [init] sets the pair of every device of its [devices] mapping, as
    the specification states it. *)
Definition init_sets_every_device (host : App.Host) : Prop :=
  forall (s : App.State) (message : jsval) (d : string) (p : jsval * jsval),
    optGet message "type" = JStr "init" ->
    carriedFor d message = Some p ->
    App.currentDevice (App.exec (App.ws_onmessage host (App.Value message)) s)
    = Some p.

(** What one message writes when the program keeps a single pair: an
    [init] writes the entry of ['data-logger-1'], if it has one; an
    [update] writes its [spec] and [status] whatever device it names. *)
Definition written (data : App.Parsed) : option (jsval * jsval) :=
  match data with
  | App.SyntaxError _ => None
  | App.Value message =>
      if strict_eq (optGet message "type") (JStr "init") then
        let entry := optGet (optGet message "devices") "data-logger-1" in
        if truthy entry
        then Some (optGet entry "spec", optGet entry "status")
        else None
      else if strict_eq (optGet message "type") (JStr "update") then
        Some (optGet message "spec", optGet message "status")
      else None
  end.

(** The last write of a stream, [held] being the pair held before it. *)
Definition lastWritten (stream : list App.Parsed) (held : option (jsval * jsval))
  : option (jsval * jsval) :=
  fold_left (fun acc d => match written d with
                          | Some p => Some p
                          | None => acc
                          end) stream held.

(** An [update] names its device by a primitive value (a string, in the
    wire protocol). *)
Definition device_is_primitive (data : App.Parsed) : Prop :=
  match data with
  | App.SyntaxError _ => True
  | App.Value message =>
      strict_eq (optGet message "type") (JStr "update") = true ->
      App.primitive (optGet message "device") = true
  end.

(** "A message whose type is neither init nor update, or a payload that
    cannot be decoded". *)
Definition unrecognized (data : App.Parsed) : Prop :=
  match data with
  | App.SyntaxError _ => True
  | App.Value message =>
      strict_eq (optGet message "type") (JStr "init") = false /\
      strict_eq (optGet message "type") (JStr "update") = false
  end.

(** The states of the Reconnection Controller, read off the variables of
    the program: [Opened] when [ws] is a socket whose [readyState] is
    [OPEN]; otherwise [Connecting] while [wsConnecting] is set; otherwise
    [Closed] when there has been a socket, [Idle] when there has not. *)
Inductive Controller : Type := Idle | Connecting | Opened | Closed.

Definition controller (readyState : nat -> ReadyState) (s : App.State) : Controller :=
  match App.ws s with
  | Some sock =>
      if isOPEN (readyState sock) then Opened
      else if App.wsConnecting s then Connecting else Closed
  | None => if App.wsConnecting s then Connecting else Idle
  end.

(** The watchdog closes a controller that is not open, as the
    specification states it. *)
Definition watchdog_closes (host : App.Host) : Prop :=
  forall (readyState : nat -> ReadyState) (s : App.State),
    controller readyState s <> Opened ->
    App.isSafari host = false ->
    controller readyState
      (App.step host s (readyState, App.Timer App.connectTimeout)) = Closed.

(** "The head entry of the activity log signals successful deployment of
    version 2.0": the entry [updateDevice] makes for a deployment. *)
Definition signals_deployment (version : string) (e : App.Entry) : Prop :=
  App.message e = "Deployed v" ++ version ++ " ✓" /\ App.type e = "success".

(** Teardown happens once, as the specification states it: whatever
    triggers reach an established bridge, the keepalive interval is cleared
    by exactly one call and exactly one close call is made. *)
Definition teardown_exactly_once (reconcilerUrl : string)
           (established : Proxy.Bridge string) : Prop :=
  forall turns : list (Proxy.Sockets * Proxy.Event string),
    existsb (fun t => Proxy.is_client_trigger t || Proxy.is_close_event t) turns = true ->
    let b := Proxy.run (fun data => data) reconcilerUrl turns established in
    Proxy.count Proxy.is_clearInterval b = 1 /\
    Proxy.count Proxy.is_reconcilerWs_close b
    + Proxy.count Proxy.is_clientWs_close b = 1.

End Spec.

(* ================================================================== *)
(** * Concrete inputs *)
(* ================================================================== *)

Module Demo.

Import WebSocket.

(** A browser other than Safari, with a clock stuck at noon. *)
Definition chrome : App.Host :=
  App.mkHost (fun _ => "12:00:00") (fun _ => "0") false (fun _ => None)
             (fun k => mkError "TypeError" ("Cannot read properties of null (reading '" ++ k ++ "')"))
             (mkError "TypeError" "Cannot convert object to primitive value").

Definition safari : App.Host :=
  App.mkHost (fun _ => "12:00:00") (fun _ => "0") true (fun _ => None)
             (fun k => mkError "TypeError" ("null is not an object (evaluating '" ++ k ++ "')"))
             (mkError "TypeError" "No default value").

(** The page once [loadConfig] has run and no device has been loaded. *)
Definition loaded : App.State :=
  App.mkState (JStr "ws://localhost:3000/ws") None false None [] ("", "") 0 0 0 [].

(** [{"type":"update","device":d,"spec":{"appVersion":desired},"status":{"appVersion":actual}}] *)
Definition update (d desired actual : string) : jsval :=
  JObj [("type", JStr "update"); ("device", JStr d);
        ("spec", JObj [("appVersion", JStr desired)]);
        ("status", JObj [("appVersion", JStr actual)])].

(** [{"type":"init","devices":{d:{"spec":{"appVersion":desired},"status":{"appVersion":actual}}}}] *)
Definition init (d desired actual : string) : jsval :=
  JObj [("type", JStr "init");
        ("devices", JObj [(d, JObj [("spec", JObj [("appVersion", JStr desired)]);
                                    ("status", JObj [("appVersion", JStr actual)])])])].

Definition version (v : string) : jsval := JObj [("appVersion", JStr v)].

(** A first connection attempt under way: [connectWebSocket] has run on
    the loaded page. *)
Definition connecting : App.State :=
  App.step chrome loaded (fun _ => CONNECTING, App.Timer App.reconnect).

(** The attempt has failed: the socket closed with code 1006. *)
Definition closed : App.State :=
  App.step chrome connecting (fun _ => CLOSED, App.Close 0 1006%N).

(** A stream: two updates for different devices, an undecodable frame, an
    [init] for a device other than ['data-logger-1']. *)
Definition stream : list App.Parsed :=
  [App.Value (update "d1" "1.0" "1.0");
   App.Value (update "d2" "2.0" "1.0");
   App.SyntaxError (mkError "SyntaxError" "Unexpected token");
   App.Value (init "d1" "3.0" "3.0")].

(** Both sockets open, as [setupConnection] needs them. *)
Definition bothOpen : Proxy.Sockets := Proxy.mkSockets OPEN OPEN.

(** The bridge of a browser other than Safari, just set up. *)
Definition established : Proxy.Bridge string :=
  Proxy.connection "ws://localhost:46701" (Some "Mozilla/5.0 Chrome/120.0") bothOpen.

(** The browser goes away: its socket closes, the proxy closes the
    upstream socket, whose [close] event follows. *)
Definition cascade : list (Proxy.Sockets * Proxy.Event string) :=
  [(Proxy.mkSockets CLOSED OPEN, Proxy.client_close 1001%N "");
   (Proxy.mkSockets CLOSED CLOSED, Proxy.reconciler_close 1005%N "")].

End Demo.

(* ================================================================== *)
(** * The controller, read off the transport *)
(* ================================================================== *)

(** [Spec.controller] takes Connecting to be the page's [wsConnecting]
    flag.  The transport has a state of its own, the [readyState] of the
    socket held in [ws]; read there, the controller is Connecting while
    that socket is CONNECTING, whatever the flag says. *)

Module Link.

Import WebSocket App.

Definition transport (readyState : nat -> ReadyState) (s : State) : Spec.Controller :=
  match ws s with
  | Some sock =>
      match readyState sock with
      | CONNECTING => Spec.Connecting
      | OPEN => Spec.Opened
      | CLOSING | CLOSED => Spec.Closed
      end
  | None => Spec.Idle
  end.

(** The first socket is open. *)
Definition firstOpen : nat -> ReadyState := fun _ => OPEN.

(** The first socket has closed; the second has not opened yet. *)
Definition secondPending (sock : nat) : ReadyState :=
  match sock with
  | 0 => CLOSED
  | _ => CONNECTING
  end.

(** A page comes back from the back-forward cache with its socket open:
    the first socket opens, [pageshow] closes it and starts a second
    attempt, the [close] event of the first socket arrives while the
    second is still CONNECTING, and so does, 1500 ms after [pageshow], the
    watchdog of the second attempt. *)
Definition bfcache : list ((nat -> ReadyState) * Event) :=
  [(firstOpen, Open 0);
   (firstOpen, PageShow true);
   (secondPending, Close 0 1005%N);
   (secondPending, Timer connectTimeout)].

(** The page after [bfcache], started from the first attempt. *)
Definition restored : State := run Demo.chrome bfcache Demo.connecting.

End Link.

(* ================================================================== *)
(** * The start of the page: the REST snapshot *)
(* ================================================================== *)

Module Snapshot.

Import App.

(** What [client.setPrivateKey(...)] followed by
    [await client.getBlueprints(config.colonyName, 'DataLogger')] comes to:
    an exception (no client, no network, an error of the server), or what
    the SDK resolves to, an array of blueprints or nothing. *)
Inductive Blueprints : Type :=
| rejected (e : JsError)
| resolved (blueprints : option (list jsval)).

(** The number 5, as a double. *)
Definition five : spec_float :=
  S754_finite false 5629499534213120%positive (Zneg 50%positive).

(** [defaultSpec] of [renderDefaultState]. *)
Definition defaultSpec : jsval :=
  JObj [("name", JStr "data-logger-1");
        ("location", JStr "Server Room A");
        ("appName", JStr "DataCollector");
        ("appVersion", JStr "2.9");
        ("enabled", JBool true);
        ("logInterval", JNum five);
        ("logFormat", JStr "json")].

Section Startup.

Variable host : Host.

(** [renderDefaultState()]. *)
Definition renderDefaultState : M unit := renderDevice host defaultSpec JNull.

(** [loadDevice()]: [blueprints] is [... || []]; [blueprints.length > 0]
    selects [blueprints[0]]. *)
Definition loadDevice (outcome : Blueprints) : M unit :=
  tryCatch
    (blueprints <- match outcome with
                   | rejected e => throw e
                   | resolved None => ret []
                   | resolved (Some l) => ret l
                   end ;;
     match blueprints with
     | bp :: _ =>
         spec <- getM host bp "spec" ;;
         status <- getM host bp "status" ;;
         updateDevice host spec status
     | [] => renderDefaultState
     end)
    (fun error =>
       emit (console_error "Failed to load device:") ;;
       renderDefaultState).

End Startup.

End Snapshot.

(* ================================================================== *)
(** * Counting over the trace and the log *)
(* ================================================================== *)

Module Ledger.

Import App.

(** Effects that stay on the page: console output and the flash. *)
Definition quiet (e : Effect) : Prop :=
  match e with
  | console_log _ | console_error _ | flash_reconcile => True
  | _ => False
  end.

Definition is_watchdog (e : Effect) : bool :=
  match e with
  | setTimeout _ connectTimeout 1500%N => true
  | _ => false
  end.

Definition is_reload (e : Effect) : bool :=
  match e with
  | location_reload => true
  | _ => false
  end.

Definition is_ws_close (e : Effect) : bool :=
  match e with
  | ws_close _ => true
  | _ => false
  end.

(** The [close] events among the turns of the event loop. *)
Definition is_Close (turn : (nat -> WebSocket.ReadyState) * Event) : bool :=
  match snd turn with
  | Close _ _ => true
  | _ => false
  end.

(** [count p t]: how many effects of [t] satisfy [p]. *)
Definition count (p : Effect -> bool) (t : list Effect) : nat :=
  length (filter p t).

(** What a stretch of the event loop with [closes] close events adds,
    from [s] to [s']: one retry timer for each close event; as many
    sockets constructed, and as many watchdogs set, as the socket counter
    has grown by; no reload on a browser other than Safari. *)
Definition adds (host : Host) (s s' : State) (closes : nat) : Prop :=
  count is_retry (trace s') = count is_retry (trace s) + closes
  /\ count is_new_WebSocket (trace s') + sockets s
     = count is_new_WebSocket (trace s) + sockets s'
  /\ count is_watchdog (trace s') + sockets s
     = count is_watchdog (trace s) + sockets s'
  /\ (isSafari host = false ->
      count is_reload (trace s') = count is_reload (trace s)).

(** [log'] is [log] after the entries [new] (the newest first) have been
    put in front of it by [logActivity]. *)
Definition logged (new : list Entry) (log log' : list Entry) : Prop :=
  log' = fold_right (unshift_capped) log new.

(** [c] makes at most [k] entries in the activity log, each satisfying
    [Q], and does nothing else to the log. *)
Definition Appends {A : Type} (k : nat) (Q : Entry -> Prop) (c : M A) : Prop :=
  forall s, exists new,
      length new <= k /\ Forall Q new
      /\ logged new (activityLog s) (activityLog (snd (c s))).

(** The sync indicators. *)
Definition synced : string * string := ("=", "synced").
Definition pending : string * string := ("→", "pending").
Definition unknown : string * string := ("?", "").

(** An entry agrees with the sync indicator [ind]: a "reconciling" entry
    goes with [pending], a "success" entry with [synced]. *)
Definition agrees (ind : string * string) (e : Entry) : Prop :=
  (type e = "reconciling" -> ind = pending)
  /\ (type e = "success" -> ind = synced).

End Ledger.

(* ================================================================== *)
(** * The relay, read for what it sends *)
(* ================================================================== *)

Module Relay.

Import WebSocket Proxy.

Section Calls.

Variable Buffer : Type.

Definition is_new_WebSocket (c : Call Buffer) : bool :=
  match c with new_WebSocket _ => true | _ => false end.

Definition is_setInterval (c : Call Buffer) : bool :=
  match c with setInterval _ => true | _ => false end.

Definition is_ping (c : Call Buffer) : bool :=
  match c with reconcilerWs_ping | clientWs_ping => true | _ => false end.

(** Calls that touch neither socket nor the keepalive interval. *)
Definition inert (c : Call Buffer) : Prop :=
  match c with
  | console_log _ | console_error _ | setTimeout_setupConnection _ => True
  | _ => False
  end.

(** The text frames sent to the browser, in the order they were sent. *)
Definition sentToClient (cs : list (Call Buffer)) : list string :=
  flat_map (fun c => match c with clientWs_send m => [m] | _ => [] end) (rev cs).

(** The frames sent upstream, in the order they were sent. *)
Definition sentToReconciler (cs : list (Call Buffer)) : list Buffer :=
  flat_map (fun c => match c with reconcilerWs_send d => [d] | _ => [] end) (rev cs).

(** The upstream frames that arrive while the browser's socket is [OPEN],
    converted by [toString], in the order of arrival. *)
Definition fromReconciler (toString : Buffer -> string)
           (turns : list (Sockets * Event Buffer)) : list string :=
  flat_map (fun t => match snd t with
                     | reconciler_message d =>
                         if isOPEN (clientWs (fst t)) then [toString d] else []
                     | _ => []
                     end) turns.

(** The browser's frames that arrive while the upstream socket is [OPEN],
    in the order of arrival. *)
Definition fromClient (turns : list (Sockets * Event Buffer)) : list Buffer :=
  flat_map (fun t => match snd t with
                     | client_message d =>
                         if isOPEN (reconcilerWs (fst t)) then [d] else []
                     | _ => []
                     end) turns.

Definition is_setup_timer (turn : Sockets * Event Buffer) : bool :=
  match snd turn with setup_timer => true | _ => false end.

(** The [error] events of the browser's socket.  Until [setupConnection]
    has registered its listeners such an event has no listener. *)
Definition is_client_error (turn : Sockets * Event Buffer) : bool :=
  match snd turn with client_error _ => true | _ => false end.

(** Turns that are neither the setup timer nor an [error] event of the
    browser's socket. *)
Definition before_setup (turn : Sockets * Event Buffer) : bool :=
  negb (is_setup_timer turn) && negb (is_client_error turn).

End Calls.

Arguments is_new_WebSocket {Buffer} c.
Arguments is_setInterval {Buffer} c.
Arguments is_ping {Buffer} c.
Arguments inert {Buffer} c.
Arguments sentToClient {Buffer} cs.
Arguments sentToReconciler {Buffer} cs.
Arguments fromReconciler {Buffer} toString turns.
Arguments fromClient {Buffer} turns.
Arguments is_setup_timer {Buffer} turn.
Arguments is_client_error {Buffer} turn.
Arguments before_setup {Buffer} turn.

End Relay.

(* ================================================================== *)
(** * The web server's configuration endpoint and the setup script *)
(* ================================================================== *)

Module Server.

(** [s.split(sep)] for a separator of one character. *)
Fixpoint split (sep : ascii) (s : string) : list string :=
  match s with
  | EmptyString => [EmptyString]
  | String c rest =>
      if Ascii.eqb c sep then EmptyString :: split sep rest
      else match split sep rest with
           | head :: tail => String c head :: tail
           | [] => [String c EmptyString]
           end
  end.

(** [":"]. *)
Definition colon : ascii := ":"%char.

(** [req.get('host')?.split(':')[0] || 'localhost']; [hostHeader] is
    [req.get('host')], absent when the request has no [Host] header. *)
Definition browserHost (hostHeader : option string) : string :=
  match hostHeader with
  | Some h =>
      match split colon h with
      | first :: _ => if String.eqb first "" then "localhost" else first
      | [] => "localhost"
      end
  | None => "localhost"
  end.

(** [req.get('host')?.split(':')[1] || config.port], as it appears in the
    template literal; [configPort] is the text of [config.port]. *)
Definition browserPort (configPort : string) (hostHeader : option string) : string :=
  match hostHeader with
  | Some h =>
      match split colon h with
      | _ :: second :: _ => if String.eqb second "" then configPort else second
      | _ => configPort
      end
  | None => configPort
  end.

(** [config.colonies.host === 'localhost' ? browserHost : config.colonies.host]. *)
Definition coloniesHost (configured : string) (hostHeader : option string) : string :=
  if String.eqb configured "localhost" then browserHost hostHeader else configured.

(** [`ws://${browserHost}:${browserPort}/ws`]. *)
Definition reconcilerWsUrl (configPort : string) (hostHeader : option string) : string :=
  "ws://" ++ browserHost hostHeader ++ ":" ++ browserPort configPort hostHeader ++ "/ws".

(** A string without [":"]. *)
Fixpoint colon_free (s : string) : bool :=
  match s with
  | EmptyString => true
  | String c rest => negb (Ascii.eqb c colon) && colon_free rest
  end.

(** [Object.keys(v).length > 0], for a truthy [v]: an object or an array
    has its properties or indices as keys, a string its indices, a number
    or a boolean none. *)
Definition hasKeys (v : jsval) : bool :=
  match v with
  | JObj props => negb (Nat.eqb (length props) 0)
  | JArr elts => negb (Nat.eqb (length elts) 0)
  | JStr s => negb (String.eqb s "")
  | _ => false
  end.

(** The state [listDevices] of the setup script prints for a blueprint
    whose [spec] and [status] fields are [bpSpec] and [bpStatus]. *)
Definition deviceState (bpSpec bpStatus : jsval) : string :=
  let spec := or_else bpSpec (JObj []) in
  let status := or_else bpStatus (JObj []) in
  if hasKeys status then
    if strict_eq (optGet spec "appVersion") (optGet status "appVersion")
    then "synced" else "out-of-sync"
  else "no status".

End Server.

(* ================================================================== *)
(** * The patient page: [examples/medical/public/app.js] *)
(* ================================================================== *)

From Stdlib Require Import ZArith.

Module Medical.

(** A reading: [parseInt] of a slider's value, an integer or [NaN]
    ([None]).  A comparison with [NaN] is false. *)
Definition lt (a : option Z) (n : Z) : bool :=
  match a with Some x => Z.ltb x n | None => false end.

Definition le (a : option Z) (n : Z) : bool :=
  match a with Some x => Z.leb x n | None => false end.

Definition ge (a : option Z) (n : Z) : bool :=
  match a with Some x => Z.leb n x | None => false end.

(** [{ label, cls }]. *)
Record BpStatus : Type := mkBp { label : string; cls : string }.

(** [getBpStatus(sys, dia)]. *)
Definition getBpStatus (sys dia : option Z) : BpStatus :=
  if lt sys 90 || lt dia 60 then mkBp "Low" "low"
  else if le sys 120 && le dia 80 then mkBp "Normal" "normal"
  else if le sys 129 && le dia 80 then mkBp "Elevated" "elevated"
  else if le sys 139 || le dia 89 then mkBp "High Stage 1" "high"
  else if ge sys 180 || ge dia 120 then mkBp "Critical" "critical"
  else mkBp "High Stage 2" "critical".

(** [getBpColor(cls)]; the last case is the [default]. *)
Definition getBpColor (cls : string) : string :=
  if String.eqb cls "normal" then "#4ade80"
  else if String.eqb cls "elevated" then "#fbbf24"
  else if String.eqb cls "high" then "#f59e0b"
  else if String.eqb cls "critical" then "#ef4444"
  else if String.eqb cls "low" then "#60a5fa"
  else "#4ade80".

End Medical.
(* ================================================================== *)
(** * Laws of the handler monad *)
(* ================================================================== *)

Section HandlerLaws.

Import App.

Context {A B : Type} (P : State -> Prop).

Lemma inv_ret (a : A) : Invariant P (ret a).
Proof. intros s H. exact H. Qed.

Lemma inv_throw (e : JsError) : Invariant P (@throw A e).
Proof. intros s H. exact H. Qed.

Lemma inv_getState : Invariant P getState.
Proof. intros s H. exact H. Qed.

Lemma inv_modify (f : State -> State) :
  (forall s, P s -> P (f s)) -> Invariant P (modify f).
Proof. intros Hf s H. apply Hf, H. Qed.

Lemma inv_bind (c : M A) (k : A -> M B) :
  Invariant P c -> (forall a, Invariant P (k a)) -> Invariant P (bind c k).
Proof.
  intros Hc Hk s H. unfold bind. specialize (Hc s H).
  destruct (c s) as [[a | e] s']; simpl in *.
  - apply Hk, Hc.
  - exact Hc.
Qed.

Lemma inv_tryCatch (body : M unit) (handler : JsError -> M unit) :
  Invariant P body -> (forall e, Invariant P (handler e)) ->
  Invariant P (tryCatch body handler).
Proof.
  intros Hb Hh s H. unfold tryCatch. specialize (Hb s H).
  destruct (body s) as [[a | e] s']; simpl in *.
  - exact Hb.
  - apply Hh, Hb.
Qed.

(** A computation that completes normally, taken apart. *)
Lemma bind_normal (c : M A) (k : A -> M B) (s s' : State) (b : B) :
  bind c k s = (Normal b, s') ->
  exists a s1, c s = (Normal a, s1) /\ k a s1 = (Normal b, s').
Proof.
  unfold bind. destruct (c s) as [[a | e] s1]; intros H.
  - exists a, s1. split; [reflexivity | exact H].
  - discriminate.
Qed.

End HandlerLaws.

(** Splits a goal [Invariant P c] along the structure of [c]. *)
Ltac inv_split :=
  repeat first
    [ apply inv_ret | apply inv_throw | apply inv_getState
    | apply inv_bind; [ | intro ]
    | apply inv_tryCatch; [ | intro ]
    | match goal with
      | |- App.Invariant _ (if ?b then _ else _) => destruct b
      | |- App.Invariant _ (match ?x with _ => _ end) => destruct x
      end ].

(* ================================================================== *)
(** * The activity log *)
(* ================================================================== *)

Section ActivityLog.

Import App.

Variable host : Host.

Lemma removelast_firstn_length {X : Type} (l : list X) :
  removelast l = firstn (length l - 1) l.
Proof.
  induction l as [| x l IH]; [reflexivity|].
  destruct l as [| y l]; [reflexivity|].
  change (removelast (x :: y :: l)) with (x :: removelast (y :: l)).
  rewrite IH. simpl. rewrite Nat.sub_0_r. reflexivity.
Qed.

(** [unshift] then a conditional [pop] keeps the newest 50. *)
Lemma unshift_capped_firstn (e : Entry) (log : list Entry) :
  length log <= 50 -> unshift_capped e log = firstn 50 (e :: log).
Proof.
  intros H. unfold unshift_capped.
  destruct (50 <? length (e :: log))%nat eqn:E.
  - apply Nat.ltb_lt in E. rewrite removelast_firstn_length.
    assert (Hl : length (e :: log) = 51) by (simpl in *; lia).
    rewrite Hl. reflexivity.
  - apply Nat.ltb_ge in E. symmetry. apply firstn_all2. exact E.
Qed.

Lemma unshift_capped_length (e : Entry) (log : list Entry) :
  length log <= 50 -> length (unshift_capped e log) <= 50.
Proof.
  intros H. rewrite unshift_capped_firstn by exact H.
  rewrite length_firstn. lia.
Qed.

Lemma unshift_capped_head (e : Entry) (log : list Entry) :
  hd_error (unshift_capped e log) = Some e.
Proof.
  unfold unshift_capped.
  destruct (50 <? length (e :: log))%nat eqn:E; [|reflexivity].
  apply Nat.ltb_lt in E. destruct log as [| y log]; [simpl in E; lia|].
  reflexivity.
Qed.

Lemma firstn_app_firstn {X : Type} (new old : list X) (n m : nat) :
  n <= m -> firstn n (new ++ firstn m old) = firstn n (new ++ old).
Proof.
  revert n. induction new as [| x new IH]; intros n H.
  - simpl. rewrite firstn_firstn. f_equal. lia.
  - destruct n as [| n]; [reflexivity|]. simpl. f_equal. apply IH. lia.
Qed.

(** What [logActivity] returns, and the state it leaves. *)
Lemma logActivity_eq (m t : string) (s : State) :
  logActivity host m t s =
  (Normal tt,
   set_activityLog
     (unshift_capped (mkEntry (toLocaleTimeString host (dateReads s)) m t)
                     (activityLog s))
     (set_dateReads (S (dateReads s)) s)).
Proof. reflexivity. Qed.

Lemma exec_logActivity (m t : string) (s : State) :
  exec (logActivity host m t) s =
  set_activityLog
    (unshift_capped (mkEntry (toLocaleTimeString host (dateReads s)) m t)
                    (activityLog s))
    (set_dateReads (S (dateReads s)) s).
Proof. reflexivity. Qed.

Lemma appendAll_cons (a : string * string) (rest : list (string * string)) (s : State) :
  appendAll host (a :: rest) s
  = appendAll host rest (exec (logActivity host (fst a) (snd a)) s).
Proof. reflexivity. Qed.

Lemma appendAll_log (appends : list (string * string)) (s : State) :
  length (activityLog s) <= 50 ->
  activityLog (appendAll host appends s)
  = firstn 50 (rev (stamped host (dateReads s) appends) ++ activityLog s)
  /\ dateReads (appendAll host appends s) = length appends + dateReads s.
Proof.
  revert s. induction appends as [| a rest IH]; intros s H.
  - unfold appendAll. cbn [fold_left stamped rev app length Nat.add].
    split; [|reflexivity]. symmetry. apply firstn_all2. exact H.
  - rewrite appendAll_cons, exec_logActivity.
    match goal with |- context [appendAll host rest ?s1] =>
      destruct (IH s1) as [IHl IHd] end.
    { cbn [activityLog set_activityLog]. apply unshift_capped_length, H. }
    rewrite IHl, IHd.
    cbn [activityLog dateReads set_activityLog set_dateReads length].
    split; [|lia].
    rewrite unshift_capped_firstn by exact H.
    cbn [stamped rev]. rewrite <- app_assoc. cbn [app].
    apply firstn_app_firstn. lia.
Qed.

(** ** Frame lemmas: what the helpers of the handlers leave alone *)

Lemma inv_toStrM (P : State -> Prop) (v : jsval) : Invariant P (toStrM host v).
Proof. unfold toStrM. inv_split. Qed.

Lemma inv_getM (P : State -> Prop) (v : jsval) (k : string) :
  Invariant P (getM host v k).
Proof. unfold getM. inv_split. Qed.

Lemma inv_JSON_parse (P : State -> Prop) (data : Parsed) :
  Invariant P (JSON_parse data).
Proof. unfold JSON_parse. inv_split. Qed.

Lemma inv_renderFlatState (P : State -> Prop) (v : jsval) :
  Invariant P (renderFlatState host v).
Proof. unfold renderFlatState. inv_split; apply inv_toStrM. Qed.

Lemma inv_renderDevice (P : State -> Prop) (spec status : jsval) :
  Invariant P (renderDevice host spec status).
Proof. unfold renderDevice, renderDataLoggerSVG. inv_split; apply inv_toStrM. Qed.

(** The log stays within its capacity through every handler. *)
Lemma handler_log_bounded (readyState : nat -> WebSocket.ReadyState) (ev : Event) :
  Invariant (fun s => length (activityLog s) <= 50) (handler host readyState ev).
Proof.
  destruct ev as [t | d | t c | t | [|] | p]; cbn [handler];
    unfold ws_onopen, ws_onmessage, ws_onclose, ws_onerror, connectTimeout_fired,
           connectWebSocket, pageshow, updateDevice, renderStateComparison,
           updateConnectionStatus, flashReconcile, emit, connectWebSocket;
    inv_split;
    first [ apply inv_toStrM | apply inv_getM | apply inv_JSON_parse
          | apply inv_renderFlatState | apply inv_renderDevice
          | apply inv_modify; intros;
            first [ assumption | apply unshift_capped_length; assumption ] ].
Qed.

Lemma run_log_bounded (turns : list ((nat -> WebSocket.ReadyState) * Event)) (s : State) :
  length (activityLog s) <= 50 -> length (activityLog (run host turns s)) <= 50.
Proof.
  revert s. induction turns as [| turn turns IH]; intros s H; [exact H|].
  unfold run. cbn [fold_left]. apply IH. unfold step.
  pose proof (handler_log_bounded (fst turn) (snd turn) s H) as Hh.
  destruct (handler host (fst turn) (snd turn) s) as [[u | e] s']; exact Hh.
Qed.

(** C5.  The activity history is a queue of capacity 50: after any
    sequence of appends it holds, newest first, the last 50 entries
    created (those it held before included), each exactly as it was
    created; an append therefore inserts at the head, and what is dropped
    past capacity is the oldest entry.  The bound holds after every
    sequence of events of the page as well. *)
Theorem activity_log_bounded_fifo
        (appends : list (string * string)) (s : State) :
  length (activityLog s) <= 50 ->
  activityLog (appendAll host appends s)
  = firstn 50 (rev (stamped host (dateReads s) appends) ++ activityLog s)
  /\ length (activityLog (appendAll host appends s)) <= 50
  /\ (forall turns, length (activityLog (run host turns s)) <= 50).
Proof.
  intros H. destruct (appendAll_log appends s H) as [Hlog _].
  split; [exact Hlog|]. split.
  - rewrite Hlog, length_firstn. lia.
  - intros turns. apply run_log_bounded, H.
Qed.

End ActivityLog.

(* ================================================================== *)
(** * The reconciliation state model *)
(* ================================================================== *)

Section Reconciliation.

Import App.

Variable host : Host.

(** ** Sync status *)

Lemma renderStateComparison_syncArrow (spec status : jsval) (s : State) :
  syncArrow (snd (renderStateComparison host spec status s))
  = syncIndicator spec status.
Proof.
  unfold renderStateComparison. unfold bind at 1. unfold modify at 1.
  match goal with
  | |- syncArrow (snd (?c ?s1)) = ?x =>
      cut (Invariant (fun s' => syncArrow s' = x) c);
      [ intro H; apply (H s1); reflexivity | ]
  end.
  inv_split; apply inv_renderFlatState.
Qed.

Lemma updateDevice_normal (spec status : jsval) (s s' : State) :
  updateDevice host spec status s = (Normal tt, s') ->
  syncArrow s' = syncIndicator spec status.
Proof.
  unfold updateDevice. intros H.
  do 5 (apply bind_normal in H; destruct H as (? & ? & _ & H)).
  match type of H with
  | renderStateComparison _ _ _ ?s1 = _ =>
      rewrite <- (renderStateComparison_syncArrow spec status s1)
  end.
  rewrite H. reflexivity.
Qed.

(** C2.  The sync indicator is derived from the pair alone.  It is
    [synced] exactly when there is a status and the desired and actual
    application versions are equal ([===]), [pending] exactly when there is
    a status and they differ, [unknown] exactly when there is no status,
    as for [undefined] and [null].  The versions compared are what the two
    objects hold under [appVersion]: for a specification and a status that
    are objects, the indicator is [synced] if the two values found there
    are [===] and [pending] if they are not; when both are strings, as on
    the wire, it is [synced] exactly when the strings are equal and
    [pending] exactly when they differ.  The indicator shown is the
    indicator of the pair just stored whenever [updateDevice] completes. *)
Theorem sync_status_derived (spec status : jsval) :
  let desired := optGet spec "appVersion" in
  let actual := optGet status "appVersion" in
  (syncIndicator spec status = ("=", "synced")
   <-> truthy status = true /\ strict_eq desired actual = true)
  /\ (syncIndicator spec status = ("→", "pending")
      <-> truthy status = true /\ strict_eq desired actual = false)
  /\ (syncIndicator spec status = ("?", "") <-> truthy status = false)
  /\ (status = JUndefined \/ status = JNull ->
      syncIndicator spec status = ("?", ""))
  /\ (forall sp st, spec = JObj sp -> status = JObj st ->
        desired = lookup "appVersion" sp
        /\ actual = lookup "appVersion" st
        /\ syncIndicator spec status
           = if strict_eq (lookup "appVersion" sp) (lookup "appVersion" st)
             then ("=", "synced") else ("→", "pending"))
  /\ (forall sp st d a, spec = JObj sp -> status = JObj st ->
        lookup "appVersion" sp = JStr d ->
        lookup "appVersion" st = JStr a ->
        (syncIndicator spec status = ("=", "synced") <-> d = a)
        /\ (syncIndicator spec status = ("→", "pending") <-> d <> a))
  /\ (forall s s', updateDevice host spec status s = (Normal tt, s') ->
                   syncArrow s' = syncIndicator spec status).
Proof.
  cbv zeta. pose proof (updateDevice_normal spec status) as Hn.
  assert (Habsent : status = JUndefined \/ status = JNull ->
                    syncIndicator spec status = ("?", "")).
  { intros [-> | ->]; reflexivity. }
  assert (Hobj : forall sp st, spec = JObj sp -> status = JObj st ->
                 optGet spec "appVersion" = lookup "appVersion" sp
                 /\ optGet status "appVersion" = lookup "appVersion" st
                 /\ syncIndicator spec status
                    = if strict_eq (lookup "appVersion" sp) (lookup "appVersion" st)
                      then ("=", "synced") else ("→", "pending")).
  { intros sp st -> ->. split; [reflexivity|]. split; [reflexivity|].
    unfold syncIndicator. cbn [optGet get truthy negb andb].
    destruct (strict_eq (lookup "appVersion" sp) (lookup "appVersion" st));
      reflexivity. }
  assert (Hstr : forall sp st d a, spec = JObj sp -> status = JObj st ->
                 lookup "appVersion" sp = JStr d ->
                 lookup "appVersion" st = JStr a ->
                 (syncIndicator spec status = ("=", "synced") <-> d = a)
                 /\ (syncIndicator spec status = ("→", "pending") <-> d <> a)).
  { intros sp st d a Hsp Hst Hd Ha.
    destruct (Hobj sp st Hsp Hst) as (_ & _ & ->). rewrite Hd, Ha.
    cbn [strict_eq].
    destruct (String.eqb_spec d a) as [E | E]; split; split; intros H;
      congruence. }
  refine (conj _ (conj _ (conj _ (conj Habsent (conj Hobj (conj Hstr Hn))))));
    unfold syncIndicator;
    destruct (truthy status);
    destruct (strict_eq (optGet spec "appVersion") (optGet status "appVersion"));
    cbn [negb andb]; split; intros;
    repeat match goal with H : _ /\ _ |- _ => destruct H end;
    try split; congruence.
Qed.


(** ** The pair held *)

(** The assignment to [currentDevice] comes first; nothing after it in
    [updateDevice] touches the variable, whether it completes or throws. *)
Lemma updateDevice_currentDevice (spec status : jsval) (s : State) :
  currentDevice (snd (updateDevice host spec status s)) = Some (spec, status).
Proof.
  unfold updateDevice.
  unfold bind at 1. unfold getState.
  unfold bind at 1. unfold modify at 1.
  match goal with
  | |- currentDevice (snd (?c ?s1)) = ?x =>
      cut (Invariant (fun s' => currentDevice s' = x) c);
      [ intro H; apply (H s1); reflexivity | ]
  end.
  inv_split;
    first [ apply inv_toStrM | apply inv_renderDevice | apply inv_renderFlatState
          | apply inv_modify; intros; assumption ].
Qed.

Lemma exec_tryCatch_frame {X : Type} (f : State -> X) (body : M unit)
      (handler : JsError -> M unit) (s : State) :
  (forall e x, Invariant (fun s' => f s' = x) (handler e)) ->
  f (exec (tryCatch body handler) s) = f (exec body s).
Proof.
  intros H. unfold exec, tryCatch.
  destruct (body s) as [[a | e] s']; cbn [snd]; [reflexivity|].
  apply (H e (f s') s'). reflexivity.
Qed.

Lemma get_optGet (v : jsval) (k : string) (x : jsval) :
  get v k = Some x -> forall k', get v k' = Some (optGet v k').
Proof.
  intros H k'. unfold optGet. destruct v; try discriminate H; reflexivity.
Qed.

Lemma truthy_get (v : jsval) :
  truthy v = true -> forall k, get v k = Some (optGet v k).
Proof.
  intros H k. unfold optGet. destruct v; try discriminate H; reflexivity.
Qed.

(** [ws.onmessage], read for the pair it leaves in [currentDevice]. *)
Lemma ws_onmessage_currentDevice (data : Parsed) (s : State) :
  currentDevice (exec (ws_onmessage host data) s) =
  match stored host data with
  | Some p => Some p
  | None => currentDevice s
  end.
Proof.
  unfold ws_onmessage. rewrite exec_tryCatch_frame.
  2:{ intros e x. inv_split; apply inv_modify; intros; assumption. }
  destruct data as [e | message]; [reflexivity|].
  unfold stored, exec, JSON_parse.
  unfold bind at 1. unfold ret at 1.
  unfold bind at 1. unfold emit at 1, modify at 1.
  unfold bind at 1. unfold getM at 1.
  destruct (get message "type") as [type|] eqn:Ety; [|reflexivity].
  pose proof (get_optGet _ _ _ Ety) as Hg.
  unfold ret at 1.
  destruct (strict_eq type (JStr "init")) eqn:Einit.
  - unfold bind at 1. unfold getM at 1. rewrite Hg. unfold ret at 1.
    destruct (truthy (optGet (optGet message "devices") "data-logger-1")) eqn:Edev;
      [|reflexivity].
    pose proof (truthy_get _ Edev) as Hd.
    unfold bind at 1. rewrite logActivity_eq.
    unfold bind at 1. unfold getM at 1. rewrite Hd. unfold ret at 1.
    unfold bind at 1. unfold getM at 1. rewrite Hd. unfold ret at 1.
    apply updateDevice_currentDevice.
  - destruct (strict_eq type (JStr "update")) eqn:Eupd; [|reflexivity].
    unfold bind at 1. unfold getM at 1. rewrite Hg. unfold ret at 1.
    unfold bind at 1. unfold toStrM at 1.
    destruct (toStr (numberToString host) (optGet message "device")); [|reflexivity].
    unfold ret at 1.
    unfold bind at 1. rewrite logActivity_eq.
    unfold bind at 1. unfold getM at 1. rewrite Hg. unfold ret at 1.
    unfold bind at 1. unfold getM at 1. rewrite Hg. unfold ret at 1.
    unfold bind at 1.
    match goal with
    | |- context [updateDevice host ?a ?b ?s1] =>
        pose proof (updateDevice_currentDevice a b s1) as Hu;
        destruct (updateDevice host a b s1) as [[u | e] s2]
    end; cbn [snd] in Hu |- *; exact Hu.
Qed.

Lemma primitive_toStr (v : jsval) :
  primitive v = true -> exists t, toStr (numberToString host) v = Some t.
Proof.
  destruct v as [| | [|] | f | t | l | props]; intros H; try discriminate H;
    eexists; reflexivity.
Qed.

Lemma stored_written (data : Parsed) :
  Spec.device_is_primitive data -> stored host data = Spec.written data.
Proof.
  destruct data as [e | message]; [reflexivity|].
  unfold Spec.device_is_primitive, stored, Spec.written. intros H.
  destruct (get message "type") as [type|] eqn:Ety.
  - assert (Ht : optGet message "type" = type) by (unfold optGet; rewrite Ety; reflexivity).
    rewrite Ht in *.
    destruct (strict_eq type (JStr "init")); [reflexivity|].
    destruct (strict_eq type (JStr "update")); [|reflexivity].
    destruct (primitive_toStr _ (H eq_refl)) as [t Hs]. rewrite Hs. reflexivity.
  - assert (Ht : optGet message "type" = JUndefined) by (unfold optGet; rewrite Ety; reflexivity).
    rewrite Ht. reflexivity.
Qed.

Lemma deliver_cons (data : Parsed) (stream : list Parsed) (s : State) :
  deliver host (data :: stream) s
  = deliver host stream (exec (ws_onmessage host data) s).
Proof. reflexivity. Qed.

(** C1, as the program has it.  The program keeps one pair, not one per
    device.  After any stream of messages (each [update] naming its device
    by a primitive value), the pair held is exactly the [{spec, status}] of
    the last message that writes: an [update], whatever device it names,
    or an [init] with an entry for ['data-logger-1'].  The pair is replaced
    as a whole; when no message of the stream writes, it is the pair held
    before. *)
Theorem last_write_wins_single_pair (stream : list Parsed) (s : State) :
  Forall Spec.device_is_primitive stream ->
  currentDevice (deliver host stream s)
  = Spec.lastWritten stream (currentDevice s).
Proof.
  intros H. revert s. induction H as [| data stream Hd Hs IH]; intros s.
  - reflexivity.
  - rewrite deliver_cons, IH, ws_onmessage_currentDevice, (stored_written _ Hd).
    reflexivity.
Qed.

(** C7, as the program has it.  An [init] message is read for one entry
    only, that of ['data-logger-1']: when the entry is there the pair held
    becomes its [{spec, status}]; when it is not, the pair held is left as
    it was.  The other entries of [devices] play no part. *)
Theorem init_reads_one_entry (message : jsval) (s : State) :
  optGet message "type" = JStr "init" ->
  let entry := optGet (optGet message "devices") "data-logger-1" in
  currentDevice (exec (ws_onmessage host (Value message)) s)
  = if truthy entry
    then Some (optGet entry "spec", optGet entry "status")
    else currentDevice s.
Proof.
  intros Hty entry. rewrite ws_onmessage_currentDevice. unfold stored.
  assert (Hg : get message "type" = Some (JStr "init")).
  { unfold optGet in Hty. destruct (get message "type"); [f_equal; exact Hty | discriminate Hty]. }
  rewrite Hg. cbn [strict_eq String.eqb Ascii.eqb Bool.eqb]. fold entry.
  destruct (truthy entry); reflexivity.
Qed.

(** ** The end-to-end scenario *)

(** The second message of the scenario, from any state holding the pair
    the first one leaves. *)
Lemma second_update (s1 : State) :
  currentDevice s1 = Some (Demo.version "2.0", Demo.version "1.0") ->
  exec (ws_onmessage host (Value (Demo.update "d1" "2.0" "2.0"))) s1
  = set_trace
      (flash_reconcile :: console_log "WebSocket message received:" :: trace s1)
      (set_syncArrow ("=", "synced")
         (set_currentDevice (Some (Demo.version "2.0", Demo.version "2.0"))
            (set_activityLog
               (unshift_capped
                  (mkEntry (toLocaleTimeString host (dateReads s1))
                           "State updated: d1" "success")
                  (activityLog s1))
               (set_dateReads (S (dateReads s1)) s1)))).
Proof.
  intros H. destruct s1 as [url sock connecting device log arrow n t d tr].
  cbn [currentDevice] in H. subst device. reflexivity.
Qed.

(** C4, as the program has it.  After the two messages of the scenario the
    pair held is desired 2.0 / actual 2.0 and the sync indicator is
    [synced]; the second message adds one entry to the activity log, the
    "State updated: d1" entry (severity success) that every [update]
    makes, and that entry is the head of the log.  No "Deployed" entry is
    made: the desired version is the same in both messages. *)
Theorem scenario_synced_head_is_state_updated (s : State) :
  let s1 := exec (ws_onmessage host (Value (Demo.update "d1" "2.0" "1.0"))) s in
  let s2 := exec (ws_onmessage host (Value (Demo.update "d1" "2.0" "2.0"))) s1 in
  let entry := mkEntry (toLocaleTimeString host (dateReads s1))
                       "State updated: d1" "success" in
  currentDevice s2 = Some (Demo.version "2.0", Demo.version "2.0")
  /\ syncArrow s2 = ("=", "synced")
  /\ activityLog s2 = unshift_capped entry (activityLog s1)
  /\ hd_error (activityLog s2) = Some entry.
Proof.
  intros s1 s2 entry.
  assert (H1 : currentDevice s1 = Some (Demo.version "2.0", Demo.version "1.0")).
  { unfold s1. rewrite ws_onmessage_currentDevice. reflexivity. }
  unfold s2. rewrite (second_update s1 H1).
  cbn [currentDevice syncArrow activityLog set_trace set_syncArrow
       set_currentDevice set_activityLog set_dateReads].
  repeat split. apply unshift_capped_head.
Qed.

(** ** Messages that are not recognized *)

Lemma ws_onmessage_syntax_error (e : JsError) (s : State) :
  ws_onmessage host (SyntaxError e) s
  = (Normal tt,
     set_activityLog
       (unshift_capped
          (mkEntry (toLocaleTimeString host (dateReads s))
                   ("Error: " ++ errMessage e) "error")
          (activityLog s))
       (set_dateReads (S (dateReads s))
          (set_trace (console_error "Error processing WebSocket message:" :: trace s) s))).
Proof. reflexivity. Qed.

Lemma ws_onmessage_null (message : jsval) (s : State) :
  get message "type" = None ->
  ws_onmessage host (Value message) s
  = (Normal tt,
     set_activityLog
       (unshift_capped
          (mkEntry (toLocaleTimeString host (dateReads s))
                   ("Error: " ++ errMessage (nullReadError host "type")) "error")
          (activityLog s))
       (set_dateReads (S (dateReads s))
          (set_trace (console_error "Error processing WebSocket message:"
                      :: console_log "WebSocket message received:" :: trace s) s))).
Proof.
  intros H. unfold ws_onmessage, tryCatch, JSON_parse.
  unfold bind at 1. unfold ret at 1.
  unfold bind at 1. unfold emit at 1, modify at 1.
  unfold bind at 1. unfold getM at 1. rewrite H. reflexivity.
Qed.

Lemma ws_onmessage_unknown (message type : jsval) (s : State) :
  get message "type" = Some type ->
  strict_eq type (JStr "init") = false ->
  strict_eq type (JStr "update") = false ->
  ws_onmessage host (Value message) s
  = (Normal tt,
     set_trace (console_log "Unknown message type:"
                :: console_log "WebSocket message received:" :: trace s) s).
Proof.
  intros H Hi Hu. unfold ws_onmessage, tryCatch, JSON_parse.
  unfold bind at 1. unfold ret at 1.
  unfold bind at 1. unfold emit at 1, modify at 1.
  unfold bind at 1. unfold getM at 1. rewrite H. unfold ret at 1.
  rewrite Hi, Hu. destruct s; reflexivity.
Qed.

(** C9.  A payload that cannot be decoded, or a message whose type is
    neither [init] nor [update], is logged and has no other effect: the
    handler completes normally, the pair held and the sync indicator are
    unchanged, the socket and the connecting flag are unchanged, no socket
    is created, and everything the handler does to the outside is console
    output (so no socket is closed). *)
Theorem unrecognized_message_only_logged (data : Parsed) (s : State) :
  Spec.unrecognized data ->
  let s' := snd (ws_onmessage host data s) in
  fst (ws_onmessage host data s) = Normal tt
  /\ currentDevice s' = currentDevice s
  /\ syncArrow s' = syncArrow s
  /\ ws s' = ws s
  /\ wsConnecting s' = wsConnecting s
  /\ sockets s' = sockets s
  /\ exists new, trace s' = (new ++ trace s)%list /\ new <> [] /\ Forall is_console new.
Proof.
  intros H. destruct data as [e | message].
  - rewrite ws_onmessage_syntax_error. cbn.
    repeat split; try reflexivity.
    exists [console_error "Error processing WebSocket message:"].
    repeat split; [discriminate | repeat constructor].
  - destruct H as [Hi Hu]. destruct (get message "type") as [type|] eqn:Ety.
    + assert (Ht : optGet message "type" = type)
        by (unfold optGet; rewrite Ety; reflexivity).
      rewrite Ht in Hi, Hu.
      rewrite (ws_onmessage_unknown message type s Ety Hi Hu). cbn.
      repeat split; try reflexivity.
      exists [console_log "Unknown message type:";
              console_log "WebSocket message received:"].
      repeat split; [discriminate | repeat constructor].
    + rewrite (ws_onmessage_null message s Ety). cbn.
      repeat split; try reflexivity.
      exists [console_error "Error processing WebSocket message:";
              console_log "WebSocket message received:"].
      repeat split; [discriminate | repeat constructor].
Qed.

(** Whatever the message, [ws.onmessage] completes normally: its
    [catch] handler cannot throw. *)
Lemma ws_onmessage_completes (data : Parsed) (s : State) :
  fst (ws_onmessage host data s) = Normal tt.
Proof.
  unfold ws_onmessage.
  match goal with |- fst (tryCatch ?b ?h s) = _ => generalize b end.
  intros body. unfold tryCatch.
  destruct (body s) as [[[] | e] s1]; reflexivity.
Qed.

End Reconciliation.

(* ================================================================== *)
(** * The reconnection controller *)
(* ================================================================== *)

Section Controller.

Import App WebSocket.

Variable host : Host.

(** The guard of [connectWebSocket] is the controller being [Connecting]
    or [Opened]. *)
Lemma guard_iff_controller (readyState : nat -> ReadyState) (s : State) :
  wsConnecting s
  || match ws s with
     | Some sock => isOPEN (readyState sock)
     | None => false
     end = true
  <-> Spec.controller readyState s = Spec.Connecting
      \/ Spec.controller readyState s = Spec.Opened.
Proof.
  unfold Spec.controller.
  destruct (wsConnecting s); destruct (ws s) as [sock|];
    try destruct (isOPEN (readyState sock)); cbn;
    split; intros H; try reflexivity; try discriminate H; auto;
    destruct H as [H | H]; discriminate H.
Qed.

Lemma connectWebSocket_refused (readyState : nat -> ReadyState) (s : State) :
  Spec.controller readyState s = Spec.Connecting
  \/ Spec.controller readyState s = Spec.Opened ->
  connectWebSocket host readyState s = (Normal tt, s).
Proof.
  intros H. apply guard_iff_controller in H.
  unfold connectWebSocket. unfold bind at 1. unfold getState.
  rewrite H. reflexivity.
Qed.

(** A connection attempt that goes through. *)
Lemma connectWebSocket_attempt (readyState : nat -> ReadyState) (s : State) :
  wsConnecting s = false ->
  (forall sock, ws s = Some sock -> isOPEN (readyState sock) = false) ->
  truthy (reconcilerWsUrl s) = true ->
  webSocketRejects host (reconcilerWsUrl s) = None ->
  connectWebSocket host readyState s
  = (Normal tt,
     set_trace (setTimeout (timers s) connectTimeout 1500%N
                :: new_WebSocket (sockets s) (reconcilerWsUrl s)
                :: console_log "Connecting to WebSocket:" :: trace s)
       (set_timers (S (timers s))
          (set_sockets (S (sockets s))
             (set_ws (Some (sockets s)) (set_wsConnecting true s))))).
Proof.
  intros Hc Ho Hu Hr.
  unfold connectWebSocket. unfold bind at 1. unfold getState.
  rewrite Hc.
  assert (Hg : match ws s with
               | Some sock => isOPEN (readyState sock)
               | None => false
               end = false).
  { destruct (ws s) as [sock|]; [apply Ho|]; reflexivity. }
  rewrite Hg. cbn [orb]. rewrite Hu. cbn [negb].
  unfold bind at 1. unfold emit at 1, modify at 1.
  unfold bind at 1. unfold modify at 1.
  cbn [reconcilerWsUrl set_wsConnecting set_trace]. rewrite Hr.
  reflexivity.
Qed.

(** [ws.onclose], in full. *)
Lemma ws_onclose_eq (timeoutId : nat) (code : N) (s : State) :
  ws_onclose host timeoutId code s
  = (Normal tt,
     set_trace (setTimeout (timers s) reconnect 2000%N
                :: connection_status false
                :: console_log "WebSocket closed:"
                :: clearTimeout timeoutId :: trace s)
       (set_timers (S (timers s))
          (set_activityLog
             (unshift_capped
                (mkEntry (toLocaleTimeString host (dateReads s))
                         "Disconnected from reconciler" "error")
                (activityLog s))
             (set_dateReads (S (dateReads s))
                (set_wsConnecting false s))))).
Proof. reflexivity. Qed.

Lemma run_cons (turn : (nat -> ReadyState) * Event)
      (turns : list ((nat -> ReadyState) * Event)) (s : State) :
  run host (turn :: turns) s = run host turns (step host s turn).
Proof. reflexivity. Qed.

Lemma step_retry (readyState : nat -> ReadyState) (s : State) :
  wsConnecting s = false ->
  (forall sock, ws s = Some sock -> isOPEN (readyState sock) = false) ->
  truthy (reconcilerWsUrl s) = true ->
  webSocketRejects host (reconcilerWsUrl s) = None ->
  step host s (readyState, Timer reconnect)
  = set_trace (setTimeout (timers s) connectTimeout 1500%N
               :: new_WebSocket (sockets s) (reconcilerWsUrl s)
               :: console_log "Connecting to WebSocket:" :: trace s)
      (set_timers (S (timers s))
         (set_sockets (S (sockets s))
            (set_ws (Some (sockets s)) (set_wsConnecting true s)))).
Proof.
  intros Hc Ho Hu Hr. unfold step. cbn [fst snd handler].
  rewrite (connectWebSocket_attempt readyState s Hc Ho Hu Hr). reflexivity.
Qed.

(** Retrying goes on for as many rounds as there are closes: every round
    creates one socket and schedules one retry, 2000 ms ahead. *)
Lemma retry_rounds (readyState : nat -> ReadyState) (rounds : list (nat * N)) :
  (forall sock, isOPEN (readyState sock) = false) ->
  forall s,
    wsConnecting s = false ->
    truthy (reconcilerWsUrl s) = true ->
    webSocketRejects host (reconcilerWsUrl s) = None ->
    let s' := run host (retryRounds readyState rounds) s in
    sockets s' = sockets s + length rounds
    /\ length (filter is_new_WebSocket (trace s'))
       = length (filter is_new_WebSocket (trace s)) + length rounds
    /\ length (filter is_retry (trace s'))
       = length (filter is_retry (trace s)) + length rounds.
Proof.
  intros Hrs. induction rounds as [| r rounds IH]; intros s Hc Hu Hr.
  - cbn. repeat split; lia.
  - pose (s1 := step host (step host s (readyState, Timer reconnect))
                          (readyState, Close (fst r) (snd r))).
    assert (Hrun : run host (retryRounds readyState (r :: rounds)) s
                   = run host (retryRounds readyState rounds) s1) by reflexivity.
    assert (H1 : wsConnecting s1 = false
                 /\ reconcilerWsUrl s1 = reconcilerWsUrl s
                 /\ sockets s1 = S (sockets s)
                 /\ trace s1 = setTimeout (S (timers s)) reconnect 2000%N
                               :: connection_status false
                               :: console_log "WebSocket closed:"
                               :: clearTimeout (fst r)
                               :: setTimeout (timers s) connectTimeout 1500%N
                               :: new_WebSocket (sockets s) (reconcilerWsUrl s)
                               :: console_log "Connecting to WebSocket:"
                               :: trace s).
    { unfold s1.
      rewrite (step_retry readyState s Hc (fun sock _ => Hrs sock) Hu Hr).
      unfold step. cbn [fst snd handler]. rewrite ws_onclose_eq.
      repeat split. }
    destruct H1 as (Hc1 & Hu1 & Hs1 & Ht1).
    cbv zeta. rewrite Hrun.
    destruct (IH s1) as (Hs & Hn & Ht);
      [ exact Hc1 | rewrite Hu1; exact Hu | rewrite Hu1; exact Hr | ].
    rewrite Hs, Hn, Ht, Hs1, Ht1.
    cbn [filter is_new_WebSocket is_retry length].
    repeat split; lia.
Qed.

(** The guard and the retry, with Connecting read as the page's flag.  A
    call of [connectWebSocket] while the flag is set or [ws] is open
    returns at once: the state, trace included, is what it was.  Every
    [close] event clears the flag and schedules [connectWebSocket] 2000 ms
    ahead, whatever the state and the close code.  With the flag clear and
    [ws] not open, the call the timer makes creates the next socket and
    sets the flag again.  And this goes on for any number of rounds: [n]
    closes in a row give [n] new sockets and [n] retry timers, all of them
    at 2000 ms. *)
Lemma connect_guarded_retry_fixed (readyState : nat -> ReadyState) (s : State) :
  (Spec.controller readyState s = Spec.Connecting
   \/ Spec.controller readyState s = Spec.Opened ->
   connectWebSocket host readyState s = (Normal tt, s))
  /\ (forall timeoutId code,
        let s' := step host s (readyState, Close timeoutId code) in
        wsConnecting s' = false
        /\ trace s' = setTimeout (timers s) reconnect 2000%N
                      :: connection_status false
                      :: console_log "WebSocket closed:"
                      :: clearTimeout timeoutId :: trace s)
  /\ (Spec.controller readyState s = Spec.Closed ->
      truthy (reconcilerWsUrl s) = true ->
      webSocketRejects host (reconcilerWsUrl s) = None ->
      let s' := step host s (readyState, Timer reconnect) in
      ws s' = Some (sockets s) /\ sockets s' = S (sockets s)
      /\ wsConnecting s' = true)
  /\ (forall rounds,
        (forall sock, isOPEN (readyState sock) = false) ->
        wsConnecting s = false ->
        truthy (reconcilerWsUrl s) = true ->
        webSocketRejects host (reconcilerWsUrl s) = None ->
        let s' := run host (retryRounds readyState rounds) s in
        sockets s' = sockets s + length rounds
        /\ length (filter is_new_WebSocket (trace s'))
           = length (filter is_new_WebSocket (trace s)) + length rounds
        /\ length (filter is_retry (trace s'))
           = length (filter is_retry (trace s)) + length rounds).
Proof.
  split; [apply connectWebSocket_refused|]. split; [|split].
  - intros timeoutId code. unfold step. cbn [fst snd handler].
    rewrite ws_onclose_eq. split; reflexivity.
  - intros Hclosed Hu Hr.
    assert (Hc : wsConnecting s = false
                 /\ forall sock, ws s = Some sock -> isOPEN (readyState sock) = false).
    { unfold Spec.controller in Hclosed.
      destruct (ws s) as [sock|]; destruct (wsConnecting s);
        try destruct (isOPEN (readyState sock)) eqn:E; try discriminate Hclosed.
      split; [reflexivity|]. intros sock' Hs. injection Hs as <-. exact E. }
    destruct Hc as [Hc Ho].
    rewrite (step_retry readyState s Hc Ho Hu Hr). repeat split.
  - intros rounds Hrs Hc Hu Hr. apply retry_rounds; assumption.
Qed.

(** C6.  The guard of [connectWebSocket] does not refuse every connect
    request made while a connection attempt is under way.  When [ws] is a
    socket that is still CONNECTING and the flag is clear, as the [close]
    or [error] event of an older socket leaves it, the transport is
    Connecting and yet the request goes through: a second socket is
    constructed and takes the place of the first in [ws], a second
    watchdog is set, and nothing closes the first socket. *)
Theorem connect_request_while_socket_connecting
        (readyState : nat -> ReadyState) (s : State) (sock : nat) :
  ws s = Some sock ->
  readyState sock = CONNECTING ->
  wsConnecting s = false ->
  truthy (reconcilerWsUrl s) = true ->
  webSocketRejects host (reconcilerWsUrl s) = None ->
  let s' := step host s (readyState, Timer reconnect) in
  Link.transport readyState s = Spec.Connecting
  /\ connectWebSocket host readyState s = (Normal tt, s')
  /\ s' <> s
  /\ sockets s' = S (sockets s)
  /\ ws s' = Some (sockets s)
  /\ trace s' = setTimeout (timers s) connectTimeout 1500%N
                :: new_WebSocket (sockets s) (reconcilerWsUrl s)
                :: console_log "Connecting to WebSocket:" :: trace s.
Proof.
  intros Hs Hrs Hc Hu Hr.
  assert (Ho : forall sock', ws s = Some sock' -> isOPEN (readyState sock') = false).
  { intros sock' Hs'. rewrite Hs in Hs'. injection Hs' as <-.
    rewrite Hrs. reflexivity. }
  cbv zeta. rewrite (step_retry readyState s Hc Ho Hu Hr).
  split; [unfold Link.transport; rewrite Hs, Hrs; reflexivity|].
  split; [apply connectWebSocket_attempt; assumption|].
  split; [|repeat split].
  intros E. apply (f_equal sockets) in E. cbn in E. lia.
Qed.

(** The watchdog, in full, when [ws] is a socket that is not open. *)
Lemma connectTimeout_fired_eq (readyState : nat -> ReadyState) (s : State) (sock : nat) :
  ws s = Some sock ->
  isOPEN (readyState sock) = false ->
  connectTimeout_fired host readyState s
  = (Normal tt,
     set_trace ((if isSafari host
                 then [location_reload; console_log "Safari detected, reloading page..."]
                 else [])
                ++ console_log "WebSocket connection timeout" :: trace s)%list s).
Proof.
  intros Hs Ho. unfold connectTimeout_fired. unfold bind at 1. unfold getState.
  rewrite Hs, Ho. cbn [negb].
  destruct (isSafari host); destruct s; reflexivity.
Qed.

(** C8, as the program has it.  When the watchdog fires while [ws] is a
    socket that is not open, it writes a line to the console and, on
    Safari, reloads the page.  It changes none of the program's variables:
    the controller is in the state it was in (still Connecting, if it
    was), the socket is not closed and no reconnection is scheduled. *)
Theorem watchdog_logs_reloads_on_safari
        (readyState : nat -> ReadyState) (s : State) (sock : nat) :
  ws s = Some sock ->
  isOPEN (readyState sock) = false ->
  let s' := step host s (readyState, Timer connectTimeout) in
  s' = set_trace ((if isSafari host
                   then [location_reload; console_log "Safari detected, reloading page..."]
                   else [])
                  ++ console_log "WebSocket connection timeout" :: trace s)%list s
  /\ Spec.controller readyState s' = Spec.controller readyState s.
Proof.
  intros Hs Ho. unfold step. cbn [fst snd handler].
  rewrite (connectTimeout_fired_eq readyState s sock Hs Ho).
  split; reflexivity.
Qed.

End Controller.

(* ================================================================== *)
(** * The connection bridge *)
(* ================================================================== *)

Section BridgeFacts.

Import Proxy WebSocket.

Variable Buffer : Type.
Variable toString : Buffer -> string.
Variable reconcilerUrl : string.

Lemma bridge_run_cons (turn : Sockets * Event Buffer)
      (turns : list (Sockets * Event Buffer)) (b : Bridge Buffer) :
  run toString reconcilerUrl (turn :: turns) b
  = run toString reconcilerUrl turns (handle toString reconcilerUrl b turn).
Proof. reflexivity. Qed.

Lemma bridge_run_app (pre post : list (Sockets * Event Buffer)) (b : Bridge Buffer) :
  run toString reconcilerUrl (pre ++ post) b
  = run toString reconcilerUrl post (run toString reconcilerUrl pre b).
Proof. unfold run. apply fold_left_app. Qed.

(** One event on an established bridge: what it adds to the calls, and
    what it does to the interval. *)
Lemma handle_established (b : Bridge Buffer) (turn : Sockets * Event Buffer) :
  attached b = true ->
  setupPending b = false ->
  let b' := handle toString reconcilerUrl b turn in
  attached b' = true
  /\ setupPending b' = false
  /\ count is_clearInterval b' = count is_clearInterval b + bump (is_close_event turn)
  /\ count is_reconcilerWs_close b'
     = count is_reconcilerWs_close b + bump (is_client_trigger turn)
  /\ count is_clientWs_close b'
     = count is_clientWs_close b + bump (is_reconciler_trigger turn)
  /\ pingInterval b' = pingInterval b && negb (is_close_event turn).
Proof.
  intros Ha Hp. destruct b as [pending att active cs]. cbn in Ha, Hp. subst.
  destruct turn as [io ev]. unfold count.
  destruct ev; cbn; unfold ping, call, do_clearInterval;
    try destruct active; try destruct (isOPEN (reconcilerWs io));
    try destruct (isOPEN (clientWs io)); cbn;
    repeat split; first [lia | reflexivity].
Qed.

Lemma run_established (turns : list (Sockets * Event Buffer)) (b : Bridge Buffer) :
  attached b = true ->
  setupPending b = false ->
  count is_clearInterval (run toString reconcilerUrl turns b)
  = count is_clearInterval b + length (filter is_close_event turns)
  /\ count is_reconcilerWs_close (run toString reconcilerUrl turns b)
     = count is_reconcilerWs_close b + length (filter is_client_trigger turns)
  /\ count is_clientWs_close (run toString reconcilerUrl turns b)
     = count is_clientWs_close b + length (filter is_reconciler_trigger turns)
  /\ pingInterval (run toString reconcilerUrl turns b)
     = pingInterval b && negb (existsb is_close_event turns).
Proof.
  revert b. induction turns as [| turn turns IH]; intros b Ha Hp.
  - cbn. rewrite andb_true_r. repeat split; lia.
  - rewrite bridge_run_cons.
    destruct (handle_established b turn Ha Hp) as (Ha' & Hp' & H1 & H2 & H3 & H4).
    destruct (IH _ Ha' Hp') as (I1 & I2 & I3 & I4).
    rewrite I1, I2, I3, I4, H1, H2, H3, H4.
    cbn [filter existsb].
    destruct (is_close_event turn); destruct (is_client_trigger turn);
      destruct (is_reconciler_trigger turn); cbn [bump length negb orb andb];
      rewrite ?andb_true_r, ?andb_false_r;
      repeat split; try lia; try reflexivity.
Qed.

(** C3, as the program has it.  There is no already-closing guard: every
    trigger runs its listener.  Over any sequence of events reaching an
    established bridge, [clearInterval] is called once for each [close]
    event (of either socket) and not at all by an [error] event; the
    upstream socket gets one [close()] call for each downstream [close] or
    [error] event, the downstream socket one for each upstream [close] or
    [error] event.  Once a [close] event has been handled the keepalive
    interval is cancelled and stays so. *)
Theorem teardown_calls_per_trigger
        (turns : list (Sockets * Event Buffer)) (b : Bridge Buffer) :
  attached b = true ->
  setupPending b = false ->
  count is_clearInterval (run toString reconcilerUrl turns b)
  = count is_clearInterval b + length (filter is_close_event turns)
  /\ count is_reconcilerWs_close (run toString reconcilerUrl turns b)
     = count is_reconcilerWs_close b + length (filter is_client_trigger turns)
  /\ count is_clientWs_close (run toString reconcilerUrl turns b)
     = count is_clientWs_close b + length (filter is_reconciler_trigger turns)
  /\ (existsb is_close_event turns = true ->
      pingInterval (run toString reconcilerUrl turns b) = false).
Proof.
  intros Ha Hp. destruct (run_established turns b Ha Hp) as (H1 & H2 & H3 & H4).
  repeat split; try assumption.
  intros Hc. rewrite H4, Hc. apply andb_false_r.
Qed.

(** A frame whose destination is not open leaves the bridge as it was. *)
Lemma handle_client_message_dropped (io : Sockets) (data : Buffer) (b : Bridge Buffer) :
  isOPEN (reconcilerWs io) = false ->
  handle toString reconcilerUrl b (io, client_message data) = b.
Proof.
  intros H. unfold handle. cbn [fst snd listener]. rewrite H.
  destruct (attached b); reflexivity.
Qed.

Lemma handle_reconciler_message_dropped (io : Sockets) (data : Buffer) (b : Bridge Buffer) :
  isOPEN (clientWs io) = false ->
  handle toString reconcilerUrl b (io, reconciler_message data) = b.
Proof.
  intros H. unfold handle. cbn [fst snd listener]. rewrite H.
  destruct (attached b); reflexivity.
Qed.

(** C10.  A frame that arrives while the socket it should go to is not
    [OPEN] is dropped without trace: the listener makes no call (no send,
    nothing on the console) and keeps nothing, so the whole run, the calls
    of every later event included, is the run in which the frame never
    arrived.  This holds in both directions, and in particular for a frame
    from the browser while the upstream socket is still [CONNECTING]. *)
Theorem frame_dropped_when_peer_not_open
        (io : Sockets) (data : Buffer)
        (pre post : list (Sockets * Event Buffer)) (b : Bridge Buffer) :
  (isOPEN (reconcilerWs io) = false ->
   run toString reconcilerUrl (pre ++ (io, client_message data) :: post) b
   = run toString reconcilerUrl (pre ++ post) b)
  /\ (isOPEN (clientWs io) = false ->
      run toString reconcilerUrl (pre ++ (io, reconciler_message data) :: post) b
      = run toString reconcilerUrl (pre ++ post) b)
  /\ (reconcilerWs io = CONNECTING ->
      handle toString reconcilerUrl (run toString reconcilerUrl pre b)
             (io, client_message data)
      = run toString reconcilerUrl pre b).
Proof.
  split; [|split]; intros H.
  - rewrite !bridge_run_app, bridge_run_cons, handle_client_message_dropped by exact H.
    reflexivity.
  - rewrite !bridge_run_app, bridge_run_cons, handle_reconciler_message_dropped by exact H.
    reflexivity.
  - apply handle_client_message_dropped. rewrite H. reflexivity.
Qed.

End BridgeFacts.

(* ================================================================== *)
(** * The statements at concrete inputs *)
(* ================================================================== *)

Import WebSocket.

(** C1 as the specification states it fails: after an update for [d1] and
    then one for [d2], the last message referencing [d1] carries versions
    1.0 / 1.0, and the pair held is the one of [d2]. *)
Lemma per_device_last_write_fails :
  ~ Spec.last_write_wins_per_device Demo.chrome.
Proof.
  intros H.
  specialize (H Demo.loaded
                [Demo.update "d1" "1.0" "1.0"; Demo.update "d2" "2.0" "2.0"]
                "d1" (Demo.version "1.0", Demo.version "1.0") eq_refl).
  vm_compute in H. discriminate H.
Qed.

Lemma last_write_wins_single_pair_witness :
  Forall Spec.device_is_primitive Demo.stream
  /\ App.currentDevice (App.deliver Demo.chrome Demo.stream Demo.loaded)
     = Spec.lastWritten Demo.stream (App.currentDevice Demo.loaded).
Proof.
  assert (H : Forall Spec.device_is_primitive Demo.stream).
  { repeat constructor; intros _; reflexivity. }
  split; [exact H|].
  exact (last_write_wins_single_pair Demo.chrome Demo.stream Demo.loaded H).
Defined.

Lemma sync_status_derived_witness :
  let s' := snd (App.updateDevice Demo.chrome (Demo.version "2.0")
                                  (Demo.version "1.0") Demo.loaded) in
  (App.updateDevice Demo.chrome (Demo.version "2.0") (Demo.version "1.0") Demo.loaded
   = (App.Normal tt, s')
   /\ App.syncArrow s' = ("→", "pending"))
  /\ App.syncIndicator (Demo.version "2.0") (Demo.version "1.0") = ("→", "pending")
  /\ App.syncIndicator (Demo.version "2.0") (Demo.version "2.0") = ("=", "synced")
  /\ App.syncIndicator (Demo.version "2.0") JNull = ("?", "")
  /\ App.syncIndicator (Demo.version "2.0") (JObj []) = ("→", "pending").
Proof.
  intros s'.
  assert (H : App.updateDevice Demo.chrome (Demo.version "2.0")
                               (Demo.version "1.0") Demo.loaded
              = (App.Normal tt, s')) by reflexivity.
  assert (Hd : lookup "appVersion" [("appVersion", JStr "2.0")] = JStr "2.0")
    by reflexivity.
  assert (Ha : lookup "appVersion" [("appVersion", JStr "1.0")] = JStr "1.0")
    by reflexivity.
  assert (Hne : "2.0" <> "1.0") by discriminate.
  assert (Hpending : App.syncIndicator (Demo.version "2.0") (Demo.version "1.0")
                     = ("→", "pending")).
  { exact (proj2 (proj2 (proj1 (proj2 (proj2 (proj2 (proj2 (proj2
             (sync_status_derived Demo.chrome (Demo.version "2.0")
                                  (Demo.version "1.0")))))))
             _ _ "2.0" "1.0" eq_refl eq_refl Hd Ha)) Hne). }
  split; [split; [exact H|]|split; [exact Hpending|split; [|split]]].
  - rewrite <- Hpending.
    exact (proj2 (proj2 (proj2 (proj2 (proj2 (proj2
             (sync_status_derived Demo.chrome (Demo.version "2.0")
                                  (Demo.version "1.0")))))))
             Demo.loaded s' H).
  - exact (proj2 (proj1 (proj1 (proj2 (proj2 (proj2 (proj2 (proj2
             (sync_status_derived Demo.chrome (Demo.version "2.0")
                                  (Demo.version "2.0")))))))
             _ _ "2.0" "2.0" eq_refl eq_refl Hd Hd)) eq_refl).
  - exact (proj1 (proj2 (proj2 (proj2
             (sync_status_derived Demo.chrome (Demo.version "2.0") JNull))))
             (or_intror eq_refl)).
  - exact (proj2 (proj2 (proj1 (proj2 (proj2 (proj2 (proj2
             (sync_status_derived Demo.chrome (Demo.version "2.0") (JObj []))))))
             _ [] eq_refl eq_refl))).
Defined.

(** C3 as the specification states it fails: when the browser goes away,
    the downstream [close] and the upstream [close] that follows each call
    [clearInterval], two calls in all, and each closes the other side. *)
Lemma teardown_not_once :
  ~ Spec.teardown_exactly_once "ws://localhost:46701" Demo.established.
Proof.
  intros H. specialize (H Demo.cascade eq_refl).
  vm_compute in H. destruct H as [H _]. discriminate H.
Qed.

Lemma teardown_calls_per_trigger_witness :
  Proxy.attached Demo.established = true
  /\ Proxy.setupPending Demo.established = false
  /\ Proxy.count Proxy.is_clearInterval
       (Proxy.run (fun d => d) "ws://localhost:46701" Demo.cascade Demo.established)
     = Proxy.count Proxy.is_clearInterval Demo.established
       + length (filter Proxy.is_close_event Demo.cascade).
Proof.
  assert (Ha : Proxy.attached Demo.established = true) by reflexivity.
  assert (Hp : Proxy.setupPending Demo.established = false) by reflexivity.
  split; [exact Ha|]. split; [exact Hp|].
  exact (proj1 (teardown_calls_per_trigger string (fun d => d) "ws://localhost:46701"
                  Demo.cascade Demo.established Ha Hp)).
Defined.

(** C4 as the specification states it fails: after the two messages the
    head of the activity log is the "State updated: d1" entry, and no entry
    of the log signals a deployment of 2.0. *)
Lemma scenario_head_not_deployed :
  let log := App.activityLog
               (App.deliver Demo.chrome
                  [App.Value (Demo.update "d1" "2.0" "1.0");
                   App.Value (Demo.update "d1" "2.0" "2.0")] Demo.loaded) in
  hd_error log = Some (App.mkEntry "12:00:00" "State updated: d1" "success")
  /\ ~ Spec.signals_deployment "2.0"
         (App.mkEntry "12:00:00" "State updated: d1" "success")
  /\ Forall (fun e => ~ Spec.signals_deployment "2.0" e) log.
Proof.
  cbv zeta. split; [reflexivity|]. split.
  - intros [H _]. discriminate H.
  - vm_compute. repeat constructor; intros [H _]; discriminate H.
Qed.

Lemma activity_log_bounded_fifo_witness :
  length (App.activityLog Demo.loaded) <= 50
  /\ App.activityLog
       (App.appendAll Demo.chrome [("first", "info"); ("second", "error")] Demo.loaded)
     = firstn 50
         (rev (App.stamped Demo.chrome (App.dateReads Demo.loaded)
                           [("first", "info"); ("second", "error")])
          ++ App.activityLog Demo.loaded)%list.
Proof.
  assert (H : length (App.activityLog Demo.loaded) <= 50) by (simpl; lia).
  split; [exact H|].
  exact (proj1 (activity_log_bounded_fifo Demo.chrome
                  [("first", "info"); ("second", "error")] Demo.loaded H)).
Defined.

Lemma connect_guarded_retry_fixed_witness :
  (Spec.controller (fun _ => CONNECTING) Demo.connecting = Spec.Connecting
   /\ App.connectWebSocket Demo.chrome (fun _ => CONNECTING) Demo.connecting
      = (App.Normal tt, Demo.connecting))
  /\ (Spec.controller (fun _ => CLOSED) Demo.closed = Spec.Closed
      /\ App.sockets (App.step Demo.chrome Demo.closed
                        (fun _ => CLOSED, App.Timer App.reconnect))
         = S (App.sockets Demo.closed))
  /\ App.sockets (App.run Demo.chrome
                    (App.retryRounds (fun _ => CLOSED) [(1, 1006%N); (3, 1006%N)])
                    Demo.closed)
     = App.sockets Demo.closed + 2.
Proof.
  assert (H1 : Spec.controller (fun _ => CONNECTING) Demo.connecting = Spec.Connecting)
    by reflexivity.
  assert (H2 : Spec.controller (fun _ => CLOSED) Demo.closed = Spec.Closed)
    by reflexivity.
  assert (Hu : truthy (App.reconcilerWsUrl Demo.closed) = true) by reflexivity.
  assert (Hr : App.webSocketRejects Demo.chrome (App.reconcilerWsUrl Demo.closed) = None)
    by reflexivity.
  assert (Hc : App.wsConnecting Demo.closed = false) by reflexivity.
  split; [split; [exact H1|]|split; [split; [exact H2|]|]].
  - exact (proj1 (connect_guarded_retry_fixed Demo.chrome (fun _ => CONNECTING)
                    Demo.connecting) (or_introl H1)).
  - exact (proj1 (proj2 (proj1 (proj2 (proj2
             (connect_guarded_retry_fixed Demo.chrome (fun _ => CLOSED) Demo.closed)))
             H2 Hu Hr))).
  - exact (proj1 (proj2 (proj2 (proj2
             (connect_guarded_retry_fixed Demo.chrome (fun _ => CLOSED) Demo.closed)))
             [(1, 1006%N); (3, 1006%N)] (fun _ => eq_refl) Hc Hu Hr)).
Defined.

(** A page restored from the back-forward cache, on a browser other than
    Safari: after [bfcache] the page holds the second socket, still
    CONNECTING, with the flag cleared by the close event of the first; the
    retry that event scheduled then constructs a third socket. *)
Lemma connect_request_while_socket_connecting_witness :
  App.ws Link.restored = Some 1
  /\ Link.secondPending 1 = CONNECTING
  /\ App.wsConnecting Link.restored = false
  /\ Link.transport Link.secondPending Link.restored = Spec.Connecting
  /\ App.sockets Link.restored = 2
  /\ (let s' := App.step Demo.chrome Link.restored
                         (Link.secondPending, App.Timer App.reconnect) in
      App.sockets s' = 3 /\ App.ws s' = Some 2).
Proof.
  assert (Hs : App.ws Link.restored = Some 1) by reflexivity.
  assert (Hrs : Link.secondPending 1 = CONNECTING) by reflexivity.
  assert (Hc : App.wsConnecting Link.restored = false) by reflexivity.
  assert (Hu : truthy (App.reconcilerWsUrl Link.restored) = true) by reflexivity.
  assert (Hr : App.webSocketRejects Demo.chrome (App.reconcilerWsUrl Link.restored) = None)
    by reflexivity.
  pose proof (connect_request_while_socket_connecting
                Demo.chrome Link.secondPending Link.restored 1 Hs Hrs Hc Hu Hr) as H.
  cbv zeta in H. destruct H as (Ht & _ & _ & Hn & Hw & _).
  split; [exact Hs|]. split; [exact Hrs|]. split; [exact Hc|].
  split; [exact Ht|]. split; [reflexivity|].
  cbv zeta. split; [exact Hn | exact Hw].
Defined.

(** C7 as the specification states it fails: an [init] whose mapping has an
    entry for [d1] leaves the page without a pair. *)
Lemma init_other_device_ignored :
  ~ Spec.init_sets_every_device Demo.chrome.
Proof.
  intros H.
  specialize (H Demo.loaded (Demo.init "d1" "1.0" "1.0") "d1"
                (Demo.version "1.0", Demo.version "1.0") eq_refl eq_refl).
  vm_compute in H. discriminate H.
Qed.

Lemma init_reads_one_entry_witness :
  optGet (Demo.init "data-logger-1" "1.0" "1.0") "type" = JStr "init"
  /\ App.currentDevice
       (App.exec (App.ws_onmessage Demo.chrome
                    (App.Value (Demo.init "data-logger-1" "1.0" "1.0"))) Demo.loaded)
     = Some (Demo.version "1.0", Demo.version "1.0").
Proof.
  assert (H : optGet (Demo.init "data-logger-1" "1.0" "1.0") "type" = JStr "init")
    by reflexivity.
  split; [exact H|].
  exact (init_reads_one_entry Demo.chrome (Demo.init "data-logger-1" "1.0" "1.0")
           Demo.loaded H).
Defined.

(** C8 as the specification states it fails: on a browser other than
    Safari, the watchdog firing during an attempt leaves the controller
    Connecting. *)
Lemma watchdog_leaves_connecting :
  ~ Spec.watchdog_closes Demo.chrome.
Proof.
  intros H.
  assert (Hn : Spec.controller (fun _ => CONNECTING) Demo.connecting <> Spec.Opened)
    by (vm_compute; discriminate).
  specialize (H (fun _ => CONNECTING) Demo.connecting Hn eq_refl).
  vm_compute in H. discriminate H.
Qed.

Lemma watchdog_logs_reloads_on_safari_witness :
  App.ws Demo.connecting = Some 0
  /\ isOPEN CONNECTING = false
  /\ App.trace (App.step Demo.safari Demo.connecting
                  (fun _ => CONNECTING, App.Timer App.connectTimeout))
     = (App.location_reload
        :: App.console_log "Safari detected, reloading page..."
        :: App.console_log "WebSocket connection timeout"
        :: App.trace Demo.connecting)%list.
Proof.
  assert (Hs : App.ws Demo.connecting = Some 0) by reflexivity.
  assert (Ho : isOPEN ((fun _ : nat => CONNECTING) 0) = false) by reflexivity.
  split; [exact Hs|]. split; [exact Ho|].
  exact (f_equal App.trace
           (proj1 (watchdog_logs_reloads_on_safari Demo.safari (fun _ => CONNECTING)
                     Demo.connecting 0 Hs Ho))).
Defined.

Lemma unrecognized_message_only_logged_witness :
  Spec.unrecognized (App.Value (JObj [("type", JStr "ping")]))
  /\ App.currentDevice
       (snd (App.ws_onmessage Demo.chrome
               (App.Value (JObj [("type", JStr "ping")])) Demo.connecting))
     = App.currentDevice Demo.connecting.
Proof.
  assert (H : Spec.unrecognized (App.Value (JObj [("type", JStr "ping")])))
    by (split; reflexivity).
  split; [exact H|].
  exact (proj1 (proj2 (unrecognized_message_only_logged Demo.chrome
                         (App.Value (JObj [("type", JStr "ping")]))
                         Demo.connecting H))).
Defined.

Lemma frame_dropped_when_peer_not_open_witness :
  (isOPEN (Proxy.reconcilerWs (Proxy.mkSockets OPEN CONNECTING)) = false
   /\ Proxy.run (fun d => d) "ws://localhost:46701"
        ([(Demo.bothOpen, Proxy.reconciler_open)]
         ++ (Proxy.mkSockets OPEN CONNECTING, Proxy.client_message "hello")
         :: Demo.cascade)%list
        Demo.established
      = Proxy.run (fun d => d) "ws://localhost:46701"
          ([(Demo.bothOpen, Proxy.reconciler_open)] ++ Demo.cascade)%list
          Demo.established)
  /\ (isOPEN (Proxy.clientWs (Proxy.mkSockets CLOSING OPEN)) = false
      /\ Proxy.run (fun d => d) "ws://localhost:46701"
           ([] ++ (Proxy.mkSockets CLOSING OPEN, Proxy.reconciler_message "update")
            :: Demo.cascade)%list
           Demo.established
         = Proxy.run (fun d => d) "ws://localhost:46701" ([] ++ Demo.cascade)%list
             Demo.established).
Proof.
  assert (H1 : isOPEN (Proxy.reconcilerWs (Proxy.mkSockets OPEN CONNECTING)) = false)
    by reflexivity.
  assert (H2 : isOPEN (Proxy.clientWs (Proxy.mkSockets CLOSING OPEN)) = false)
    by reflexivity.
  split; (split; [assumption|]).
  - exact (proj1 (frame_dropped_when_peer_not_open string (fun d => d)
                    "ws://localhost:46701" (Proxy.mkSockets OPEN CONNECTING) "hello"
                    [(Demo.bothOpen, Proxy.reconciler_open)] Demo.cascade
                    Demo.established) H1).
  - exact (proj1 (proj2 (frame_dropped_when_peer_not_open string (fun d => d)
                    "ws://localhost:46701" (Proxy.mkSockets CLOSING OPEN) "update"
                    [] Demo.cascade Demo.established)) H2).
Defined.

(* ================================================================== *)
(** * More on the reconciliation state model *)
(* ================================================================== *)

Section MessagesAndConnection.

Import App Ledger.

Variable host : Host.

(** Splits [ws.onmessage] and what it calls down to the assignments. *)
Ltac onmessage_split :=
  unfold ws_onmessage, updateDevice, renderStateComparison, flashReconcile, emit;
  inv_split;
  try first [ apply inv_toStrM | apply inv_getM | apply inv_JSON_parse
            | apply inv_renderFlatState | apply inv_renderDevice ].

Lemma ws_onmessage_frame {X : Type} (f : State -> X) :
  (forall s t, f (set_trace t s) = f s) ->
  (forall s n, f (set_dateReads n s) = f s) ->
  (forall s l, f (set_activityLog l s) = f s) ->
  (forall s d, f (set_currentDevice d s) = f s) ->
  (forall s a, f (set_syncArrow a s) = f s) ->
  forall data s, f (snd (ws_onmessage host data s)) = f s.
Proof.
  intros Ht Hd Hl Hc Ha data s.
  cut (Invariant (fun s' => f s' = f s) (ws_onmessage host data));
    [ intros H; apply (H s); reflexivity | ].
  onmessage_split; apply inv_modify; intros s0 H; cbv beta;
    rewrite ?Ht, ?Hd, ?Hl, ?Hc, ?Ha; exact H.
Qed.

Lemma ws_onmessage_quiet (data : Parsed) (s : State) :
  exists new, trace (snd (ws_onmessage host data s)) = (new ++ trace s)%list
              /\ Forall quiet new.
Proof.
  cut (Invariant (fun s' => exists new, trace s' = (new ++ trace s)%list
                                        /\ Forall quiet new)
                 (ws_onmessage host data));
    [ intros H; apply (H s); exists []; split; [reflexivity | constructor] | ].
  onmessage_split; apply inv_modify; intros s0 [new [Hn Hq]];
    first [ exists new; split; [exact Hn | exact Hq]
          | eexists (_ :: new); split;
            [ cbn [trace set_trace]; rewrite Hn; reflexivity
            | constructor; [exact I | exact Hq] ] ].
Qed.

(** X1.  Whatever the payload, [ws.onmessage] completes normally and
    leaves the connection alone: the socket, the connecting flag, the
    configured URL and the counts of sockets and timers are what they were,
    and all it does outside the page's variables is console output and the
    flash.  In particular no message closes or opens a socket, sets a
    timer or reloads the page. *)
Theorem onmessage_leaves_connection_alone (data : Parsed) (s : State) :
  let r := ws_onmessage host data s in
  fst r = Normal tt
  /\ ws (snd r) = ws s
  /\ wsConnecting (snd r) = wsConnecting s
  /\ reconcilerWsUrl (snd r) = reconcilerWsUrl s
  /\ sockets (snd r) = sockets s
  /\ timers (snd r) = timers s
  /\ exists new, trace (snd r) = (new ++ trace s)%list /\ Forall quiet new.
Proof.
  cbv zeta. split; [apply ws_onmessage_completes|].
  repeat split; try (apply ws_onmessage_frame; reflexivity).
  apply ws_onmessage_quiet.
Qed.

End MessagesAndConnection.

(* ================================================================== *)
(** * What [updateDevice] writes to the activity log *)
(* ================================================================== *)

Section LogOfUpdateDevice.

Import App Ledger.

Variable host : Host.

Lemma appends_weaken {A : Type} (k k' : nat) (Q : Entry -> Prop) (c : M A) :
  k <= k' -> Appends k Q c -> Appends k' Q c.
Proof.
  intros Hk H s. destruct (H s) as (new & Hl & Hq & Hn).
  exists new. repeat split; [lia | exact Hq | exact Hn].
Qed.

Lemma appends_keep {A : Type} (Q : Entry -> Prop) (c : M A) :
  (forall log, Invariant (fun s => activityLog s = log) c) -> Appends 0 Q c.
Proof.
  intros H s. exists []. split; [cbn; lia|]. split; [constructor|].
  unfold logged. cbn [fold_right]. apply (H (activityLog s) s). reflexivity.
Qed.

Lemma appends_bind {A B : Type} (k1 k2 k : nat) (Q : Entry -> Prop)
      (c : M A) (f : A -> M B) :
  Appends k1 Q c -> (forall a, Appends k2 Q (f a)) -> k1 + k2 <= k ->
  Appends k Q (bind c f).
Proof.
  intros Hc Hf Hk s. unfold bind.
  destruct (Hc s) as (new1 & Hl1 & Hq1 & Hn1).
  destruct (c s) as [[a | e] s1]; cbn [snd] in *.
  - destruct (Hf a s1) as (new2 & Hl2 & Hq2 & Hn2).
    exists (new2 ++ new1)%list. repeat split.
    + rewrite length_app. lia.
    + apply Forall_app. split; assumption.
    + unfold logged in *. rewrite fold_right_app, <- Hn1. exact Hn2.
  - exists new1. repeat split; [lia | exact Hq1 | exact Hn1].
Qed.

Lemma appends_logActivity (Q : Entry -> Prop) (m t : string) :
  (forall tm, Q (mkEntry tm m t)) -> Appends 1 Q (logActivity host m t).
Proof.
  intros H s. change (snd (logActivity host m t s)) with (exec (logActivity host m t) s).
  rewrite exec_logActivity.
  exists [mkEntry (toLocaleTimeString host (dateReads s)) m t].
  split; [cbn; lia|]. split; [constructor; [apply H | constructor]|].
  reflexivity.
Qed.

Lemma appends_pure {A : Type} (Q : Entry -> Prop) (c : M A) :
  (forall P : State -> Prop, Invariant P c) -> Appends 0 Q c.
Proof. intros H. apply appends_keep. intros log. apply H. Qed.

Lemma appends_toStrM (Q : Entry -> Prop) (v : jsval) : Appends 0 Q (toStrM host v).
Proof. apply appends_pure. intros P. apply inv_toStrM. Qed.

Lemma appends_renderDevice (Q : Entry -> Prop) (spec status : jsval) :
  Appends 0 Q (renderDevice host spec status).
Proof. apply appends_pure. intros P. apply inv_renderDevice. Qed.

Lemma appends_renderStateComparison (Q : Entry -> Prop) (spec status : jsval) :
  Appends 0 Q (renderStateComparison host spec status).
Proof.
  apply appends_keep. intros log. unfold renderStateComparison.
  inv_split; first [ apply inv_renderFlatState
                   | apply inv_modify; intros; assumption ].
Qed.

Lemma appends_ret {A : Type} (Q : Entry -> Prop) (a : A) : Appends 0 Q (ret a).
Proof. apply appends_pure. intros P. apply inv_ret. Qed.

Lemma truthy_optGet (v : jsval) (k : string) :
  truthy (optGet v k) = true -> truthy v = true.
Proof. destruct v; cbn; intros H; try discriminate H; reflexivity. Qed.

(** The log entry a message of three parts makes, logged after the parts
    have been converted to text. *)
Lemma appends_template2 (Q : Entry -> Prop) (a b : jsval) (m : string -> string -> string)
      (t : string) :
  (forall tm x y, Q (mkEntry tm (m x y) t)) ->
  Appends 1 Q (bind (toStrM host a)
                 (fun x => bind (toStrM host b)
                             (fun y => logActivity host (m x y) t))).
Proof.
  intros H.
  apply (appends_bind 0 1); [apply appends_toStrM | | lia]. intros x.
  apply (appends_bind 0 1); [apply appends_toStrM | | lia]. intros y.
  apply appends_logActivity. intros tm. apply H.
Qed.

Lemma updateDevice_appends (spec status : jsval) :
  Appends 2 (agrees (syncIndicator spec status)) (updateDevice host spec status).
Proof.
  unfold updateDevice.
  apply (appends_bind 0 2); [apply appends_pure; intros P; apply inv_getState | | lia].
  intros s0. cbv zeta.
  apply (appends_bind 0 2);
    [ apply appends_keep; intros log; apply inv_modify; intros; assumption | | lia ].
  intros _.
  apply (appends_bind 1 1); [ | | lia].
  { match goal with |- Appends _ _ (if ?b then _ else _) => destruct b end.
    - apply appends_template2. intros tm x y. split; intros H; discriminate H.
    - apply (appends_weaken 0); [lia | apply appends_ret]. }
  intros _.
  apply (appends_bind 1 0); [ | | lia].
  { match goal with |- Appends _ _ (if ?b then _ else _) => destruct b eqn:Edep end.
    - apply (appends_bind 0 1); [apply appends_toStrM | | lia]. intros n.
      apply appends_logActivity. intros tm. split; intros H; [discriminate H|].
      apply andb_prop in Edep. destruct Edep as [Edep _].
      apply andb_prop in Edep. destruct Edep as [Esync _].
      apply andb_prop in Esync. destruct Esync as [Est Eeq].
      unfold syncIndicator. rewrite Est, Eeq. reflexivity.
    - match goal with |- Appends _ _ (if ?b then _ else _) => destruct b eqn:Erec end.
      + apply appends_template2. intros tm x y. split; intros H; [|discriminate H].
        apply andb_prop in Erec. destruct Erec as [Erec _].
        apply andb_prop in Erec. destruct Erec as [Ens Eact].
        apply truthy_optGet in Eact.
        unfold syncIndicator. rewrite Eact in *. cbn [negb andb] in *.
        destruct (strict_eq (optGet spec "appVersion") (optGet status "appVersion"));
          [discriminate Ens | reflexivity].
      + apply (appends_weaken 0); [lia | apply appends_ret]. }
  intros _.
  apply (appends_bind 0 0);
    [ apply appends_renderDevice | intros _; apply appends_renderStateComparison | lia ].
Qed.

(** X2.  One call of [updateDevice] puts at most two entries into the
    activity log, and they never contradict the sync indicator of the pair
    it stores: a "reconciling" entry is made only for a pair shown as
    pending, a "success" ("Deployed") entry only for a pair shown as
    synced.  This holds whether the call completes or throws. *)
Theorem updateDevice_log_agrees_with_indicator (spec status : jsval) (s : State) :
  exists new,
    length new <= 2
    /\ Forall (agrees (syncIndicator spec status)) new
    /\ logged new (activityLog s) (activityLog (snd (updateDevice host spec status s))).
Proof. apply updateDevice_appends. Qed.

(** X3.  An update that does not change the desired version (there was
    no truthy desired version before, or the new one is [===] to it) makes
    no "Desired version" and no "Deployed" entry: it puts at most one entry
    into the log, and that entry is a "reconciling" one.  This is so in
    particular when the desired version held and the one delivered are the
    same string, as when an [update] with a string version is delivered a
    second time. *)
Theorem updateDevice_same_desired_version (spec status : jsval) (s : State) :
  let oldVersion := optGet match currentDevice s with
                           | Some d => fst d
                           | None => JUndefined
                           end "appVersion" in
  let quiet_update :=
    exists new,
      length new <= 1
      /\ Forall (fun e => type e = "reconciling") new
      /\ logged new (activityLog s) (activityLog (snd (updateDevice host spec status s))) in
  (truthy oldVersion = false
   \/ strict_eq oldVersion (optGet spec "appVersion") = true -> quiet_update)
  /\ (forall v, oldVersion = JStr v -> optGet spec "appVersion" = JStr v ->
                quiet_update).
Proof.
  intros oldVersion quiet_update.
  assert (Main : truthy oldVersion = false
                 \/ strict_eq oldVersion (optGet spec "appVersion") = true ->
                 quiet_update).
  { intros H.
    assert (C1 : truthy oldVersion && truthy (optGet spec "appVersion")
                 && negb (strict_eq oldVersion (optGet spec "appVersion")) = false).
    { destruct H as [H | H]; rewrite H; cbn [andb negb];
        [reflexivity | apply andb_false_r]. }
    assert (C2 : truthy status
                 && strict_eq (optGet spec "appVersion") (optGet status "appVersion")
                 && truthy oldVersion
                 && negb (strict_eq oldVersion (optGet spec "appVersion")) = false).
    { destruct H as [H | H]; rewrite H; cbn [andb negb];
        rewrite ?andb_false_r; reflexivity. }
    unfold quiet_update, updateDevice.
    unfold bind at 1. unfold getState.
    unfold bind at 1. unfold modify at 1.
    fold oldVersion. cbv zeta. rewrite C1, C2.
    match goal with
    | |- exists new, _ /\ _ /\ logged new _ (activityLog (snd (?c ?s1))) =>
        cut (Appends 1 (fun e => type e = "reconciling") c);
        [ intros Hc; exact (Hc s1) | ]
    end.
    apply (appends_bind 0 1); [apply appends_ret | | lia]. intros _.
    apply (appends_bind 1 0); [ | | lia].
    { match goal with |- Appends _ _ (if ?b then _ else _) => destruct b end.
      - apply appends_template2. intros tm x y. reflexivity.
      - apply (appends_weaken 0); [lia | apply appends_ret]. }
    intros _.
    apply (appends_bind 0 0);
      [ apply appends_renderDevice | intros _; apply appends_renderStateComparison | lia ]. }
  split; [exact Main|].
  intros v Hold Hnew. apply Main. right. rewrite Hold, Hnew.
  cbn [strict_eq]. apply String.eqb_refl.
Qed.

End LogOfUpdateDevice.

(* ================================================================== *)
(** * More on the reconnection controller *)
(* ================================================================== *)

Section ForcedReset.

Import App WebSocket Ledger.

Variable host : Host.

Lemma pageshow_eq (readyState : nat -> ReadyState) (s : State) :
  truthy (reconcilerWsUrl s) = true ->
  webSocketRejects host (reconcilerWsUrl s) = None ->
  pageshow host true readyState s
  = (Normal tt,
     set_trace (setTimeout (timers s) connectTimeout 1500%N
                :: new_WebSocket (sockets s) (reconcilerWsUrl s)
                :: console_log "Connecting to WebSocket:"
                :: (match ws s with
                    | Some old => [ws_close old]
                    | None => []
                    end
                    ++ console_log "Page restored from bfcache, reconnecting WebSocket"
                    :: trace s))%list
       (set_timers (S (timers s))
          (set_sockets (S (sockets s))
             (set_ws (Some (sockets s)) (set_wsConnecting true s))))).
Proof.
  intros Hu Hr.
  destruct s as [url sock connecting device log arrow n t d tr].
  cbn [reconcilerWsUrl] in Hu, Hr.
  destruct sock as [old|];
    unfold pageshow, connectWebSocket, bind, emit, modify, getState, ret;
    cbn; rewrite Hu; cbn; rewrite Hr; reflexivity.
Qed.

(** X4.  A [pageshow] event of a page restored from the back-forward
    cache forces a fresh attempt whatever the controller was doing: the
    socket held, if any, gets a [close()] call and is dropped, and a new
    socket with its watchdog is created at once, with no retry delay and
    past the guard of [connectWebSocket] (the connecting flag is reset
    first).  A [pageshow] of a page that was not restored does nothing. *)
Theorem pageshow_forces_fresh_attempt (readyState : nat -> ReadyState) (s : State) :
  truthy (reconcilerWsUrl s) = true ->
  webSocketRejects host (reconcilerWsUrl s) = None ->
  let s' := step host s (readyState, PageShow true) in
  ws s' = Some (sockets s)
  /\ wsConnecting s' = true
  /\ sockets s' = S (sockets s)
  /\ trace s'
     = (setTimeout (timers s) connectTimeout 1500%N
        :: new_WebSocket (sockets s) (reconcilerWsUrl s)
        :: console_log "Connecting to WebSocket:"
        :: (match ws s with
            | Some old => [ws_close old]
            | None => []
            end
            ++ console_log "Page restored from bfcache, reconnecting WebSocket"
            :: trace s))%list
  /\ step host s (readyState, PageShow false) = s.
Proof.
  intros Hu Hr. unfold step. cbn [fst snd handler].
  rewrite (pageshow_eq readyState s Hu Hr).
  repeat split.
Qed.

End ForcedReset.

(* ================================================================== *)
(** * Sockets, timers and reloads over a run of the event loop *)
(* ================================================================== *)

Section Accounting.

Import App WebSocket Ledger.

Variable host : Host.

Lemma count_app (p : Effect -> bool) (a b : list Effect) :
  count p (a ++ b) = count p a + count p b.
Proof. unfold count. rewrite filter_app, length_app. reflexivity. Qed.

Lemma count_quiet (p : Effect -> bool) (new : list Effect) :
  (forall e, quiet e -> p e = false) -> Forall quiet new -> count p new = 0.
Proof.
  intros Hp H. induction H as [| e new He Hnew IH]; [reflexivity|].
  unfold count in *. cbn [filter]. rewrite (Hp e He). exact IH.
Qed.

Lemma adds_message (readyState : nat -> ReadyState) (data : Parsed) (s : State) :
  adds host s (step host s (readyState, Message data)) 0.
Proof.
  unfold step. cbn [fst snd handler].
  pose proof (ws_onmessage_completes host data s) as Hc.
  pose proof (ws_onmessage_frame host sockets
                (fun _ _ => eq_refl) (fun _ _ => eq_refl) (fun _ _ => eq_refl)
                (fun _ _ => eq_refl) (fun _ _ => eq_refl) data s) as Hs.
  destruct (ws_onmessage_quiet host data s) as (new & Hn & Hq).
  destruct (ws_onmessage host data s) as [[u | e] s']; [|discriminate Hc].
  cbn [snd] in *. unfold adds. rewrite Hn, Hs, !count_app.
  rewrite !(count_quiet _ new) by
      (try exact Hq; intros [] He; try reflexivity; destruct He).
  repeat split; lia.
Qed.

(** What one turn of the event loop adds. *)
Lemma step_adds (s : State) (turn : (nat -> ReadyState) * Event) :
  adds host s (step host s turn) (Proxy.bump (is_Close turn)).
Proof.
  destruct turn as [rs ev].
  destruct ev as [t | d | t c | t | [|] | [|]];
    try apply adds_message;
    destruct s as [url sock connecting device log arrow n tm d' tr];
    unfold adds, step, handler, ws_onopen, ws_onclose, ws_onerror,
           connectTimeout_fired, connectWebSocket, pageshow,
           updateConnectionStatus, logActivity, renderActivityLog,
           bind, emit, modify, getState, ret, throw, count, is_Close, Proxy.bump;
    cbn;
    try destruct connecting; try destruct sock as [sock|];
    try destruct (isOPEN (rs sock)); cbn;
    try destruct (truthy url); cbn;
    try destruct (webSocketRejects host url); cbn;
    try destruct (isSafari host) eqn:ES; cbn;
    repeat split; intros; try lia; try congruence.
Qed.

Lemma adds_trans (s1 s2 s3 : State) (a b : nat) :
  adds host s1 s2 a -> adds host s2 s3 b -> adds host s1 s3 (a + b).
Proof.
  unfold adds. intros (A1 & A2 & A3 & A4) (B1 & B2 & B3 & B4).
  repeat split; try lia. intros Hs. rewrite (B4 Hs). apply A4, Hs.
Qed.

Lemma run_adds (turns : list ((nat -> ReadyState) * Event)) (s : State) :
  adds host s (run host turns s) (length (filter is_Close turns)).
Proof.
  revert s. induction turns as [| turn turns IH]; intros s.
  - unfold adds. cbn. repeat split; lia.
  - change (run host (turn :: turns) s) with (run host turns (step host s turn)).
    cbn [filter].
    pose proof (adds_trans _ _ _ _ _ (step_adds s turn) (IH (step host s turn))) as H.
    destruct (is_Close turn); exact H.
Qed.

(** X5.  Over any run of the event loop, a retry of [connectWebSocket] is
    scheduled once for each [close] event and by nothing else; and every
    socket constructed gets exactly one watchdog: the sockets constructed,
    the watchdogs set and the growth of the socket counter are the same
    number. *)
Theorem retries_and_watchdogs_accounted
        (turns : list ((nat -> ReadyState) * Event)) (s : State) :
  let s' := run host turns s in
  count is_retry (trace s')
  = count is_retry (trace s) + length (filter is_Close turns)
  /\ count is_new_WebSocket (trace s') + sockets s
     = count is_new_WebSocket (trace s) + sockets s'
  /\ count is_watchdog (trace s') + sockets s
     = count is_watchdog (trace s) + sockets s'.
Proof.
  destruct (run_adds turns s) as (H1 & H2 & H3 & _). repeat split; assumption.
Qed.

(** X6.  On a browser other than Safari the page is never reloaded,
    whatever events arrive. *)
Theorem no_reload_unless_safari
        (turns : list ((nat -> ReadyState) * Event)) (s : State) :
  isSafari host = false ->
  count is_reload (trace (run host turns s)) = count is_reload (trace s).
Proof.
  intros H. destruct (run_adds turns s) as (_ & _ & _ & H4). apply H4, H.
Qed.

Lemma step_keeps_url_and_sockets (s : State) (turn : (nat -> ReadyState) * Event) :
  reconcilerWsUrl (step host s turn) = reconcilerWsUrl s
  /\ (truthy (reconcilerWsUrl s) = false
      \/ webSocketRejects host (reconcilerWsUrl s) <> None ->
      sockets (step host s turn) = sockets s
      /\ count is_new_WebSocket (trace (step host s turn))
         = count is_new_WebSocket (trace s)).
Proof.
  destruct turn as [rs ev].
  destruct ev as [t | d | t c | t | [|] | [|]].
  2:{ destruct (adds_message rs d s) as (_ & H2 & _).
      unfold step in *. cbn [fst snd handler] in *.
      pose proof (ws_onmessage_completes host d s) as Hc.
      pose proof (ws_onmessage_frame host sockets
                    (fun _ _ => eq_refl) (fun _ _ => eq_refl) (fun _ _ => eq_refl)
                    (fun _ _ => eq_refl) (fun _ _ => eq_refl) d s) as Hs.
      pose proof (ws_onmessage_frame host reconcilerWsUrl
                    (fun _ _ => eq_refl) (fun _ _ => eq_refl) (fun _ _ => eq_refl)
                    (fun _ _ => eq_refl) (fun _ _ => eq_refl) d s) as Hu.
      destruct (ws_onmessage host d s) as [[u | e] s']; [|discriminate Hc].
      cbn [snd] in *. split; [exact Hu|]. intros _. split; [exact Hs | lia]. }
  all: destruct s as [url sock connecting device log arrow n tm d' tr];
    unfold step, handler, ws_onopen, ws_onclose, ws_onerror,
           connectTimeout_fired, connectWebSocket, pageshow,
           updateConnectionStatus, logActivity, renderActivityLog,
           bind, emit, modify, getState, ret, throw, count;
    cbn;
    try destruct connecting; try destruct sock as [sock|];
    try destruct (isOPEN (rs sock)); cbn;
    try destruct (truthy url); cbn;
    try destruct (webSocketRejects host url); cbn;
    try destruct (isSafari host); cbn;
    (split; [reflexivity|]); intros [H | H];
    try discriminate H; try (exfalso; apply H; reflexivity);
    split; reflexivity.
Qed.

(** X14.  The configured URL is never changed by an event.  And when it
    is missing (or empty), or when the [WebSocket] constructor rejects it,
    no socket is ever created, whatever events arrive: nothing in the page
    recovers from a configuration without a usable URL. *)
Theorem no_socket_without_usable_url
        (turns : list ((nat -> ReadyState) * Event)) (s : State) :
  reconcilerWsUrl (run host turns s) = reconcilerWsUrl s
  /\ (truthy (reconcilerWsUrl s) = false
      \/ webSocketRejects host (reconcilerWsUrl s) <> None ->
      sockets (run host turns s) = sockets s
      /\ count is_new_WebSocket (trace (run host turns s))
         = count is_new_WebSocket (trace s)).
Proof.
  revert s. induction turns as [| turn turns IH]; intros s.
  - split; [reflexivity|]. intros _. split; reflexivity.
  - change (run host (turn :: turns) s) with (run host turns (step host s turn)).
    destruct (step_keeps_url_and_sockets s turn) as [Hu Hs].
    destruct (IH (step host s turn)) as [IHu IHs].
    split; [rewrite IHu; exact Hu|].
    intros H. destruct (Hs H) as [Hs1 Hs2].
    rewrite Hu in IHs. destruct (IHs H) as [I1 I2].
    split; [rewrite I1; exact Hs1 | rewrite I2; exact Hs2].
Qed.

(** X15.  The guard of [connectWebSocket] keys on the connecting flag,
    and the [close] event of any socket clears that flag.  So after a
    forced reset, when the [close] event of the dropped socket arrives and
    its retry timer fires while the new socket is still not open, a second
    socket is created beside the first: two sockets have been constructed,
    the first of them was neither opened nor closed, and [ws] now holds the
    second. *)
Theorem stale_close_lets_second_socket_in
        (readyState : nat -> ReadyState) (s : State) (timeoutId : nat) (code : N) :
  truthy (reconcilerWsUrl s) = true ->
  webSocketRejects host (reconcilerWsUrl s) = None ->
  (forall sock, isOPEN (readyState sock) = false) ->
  let s' := run host [(readyState, PageShow true);
                      (readyState, Close timeoutId code);
                      (readyState, Timer reconnect)] s in
  sockets s' = S (S (sockets s))
  /\ ws s' = Some (S (sockets s))
  /\ wsConnecting s' = true
  /\ trace s'
     = (setTimeout (S (S (timers s))) connectTimeout 1500%N
        :: new_WebSocket (S (sockets s)) (reconcilerWsUrl s)
        :: console_log "Connecting to WebSocket:"
        :: setTimeout (S (timers s)) reconnect 2000%N
        :: connection_status false
        :: console_log "WebSocket closed:"
        :: clearTimeout timeoutId
        :: setTimeout (timers s) connectTimeout 1500%N
        :: new_WebSocket (sockets s) (reconcilerWsUrl s)
        :: console_log "Connecting to WebSocket:"
        :: (match ws s with
            | Some old => [ws_close old]
            | None => []
            end
            ++ console_log "Page restored from bfcache, reconnecting WebSocket"
            :: trace s))%list.
Proof.
  intros Hu Hr Hrs.
  change (run host [(readyState, PageShow true);
                    (readyState, Close timeoutId code);
                    (readyState, Timer reconnect)] s)
    with (step host
            (step host (step host s (readyState, PageShow true))
                  (readyState, Close timeoutId code))
            (readyState, Timer reconnect)).
  assert (E1 : step host s (readyState, PageShow true)
               = snd (pageshow host true readyState s)).
  { unfold step. cbn [fst snd handler].
    rewrite (pageshow_eq host readyState s Hu Hr). reflexivity. }
  rewrite (pageshow_eq host readyState s Hu Hr) in E1. cbn [snd] in E1.
  rewrite E1.
  assert (E2 : forall s1, step host s1 (readyState, Close timeoutId code)
                          = snd (ws_onclose host timeoutId code s1)) by reflexivity.
  rewrite E2, ws_onclose_eq. cbn [snd].
  rewrite step_retry;
    [ cbv zeta; repeat split
    | reflexivity
    | intros sock _; apply Hrs
    | exact Hu
    | exact Hr ].
Qed.

End Accounting.

(* ================================================================== *)
(** * The REST snapshot *)
(* ================================================================== *)

Section SnapshotFacts.

Import App Snapshot.

Variable host : Host.

Lemma renderDefaultState_eq (s : State) :
  renderDefaultState host s = (Normal tt, s).
Proof. reflexivity. Qed.

Lemma loadDevice_completes (outcome : Blueprints) (s : State) :
  fst (loadDevice host outcome s) = Normal tt.
Proof.
  unfold loadDevice.
  match goal with |- fst (tryCatch ?b ?h s) = _ => generalize b end.
  intros body. unfold tryCatch.
  destruct (body s) as [[[] | e] s1]; reflexivity.
Qed.

Lemma loadDevice_frame {X : Type} (f : State -> X) :
  (forall s t, f (set_trace t s) = f s) ->
  (forall s n, f (set_dateReads n s) = f s) ->
  (forall s l, f (set_activityLog l s) = f s) ->
  (forall s d, f (set_currentDevice d s) = f s) ->
  (forall s a, f (set_syncArrow a s) = f s) ->
  forall outcome s, f (snd (loadDevice host outcome s)) = f s.
Proof.
  intros Ht Hd Hl Hc Ha outcome s.
  cut (Invariant (fun s' => f s' = f s) (loadDevice host outcome));
    [ intros H; apply (H s); reflexivity | ].
  unfold loadDevice, renderDefaultState, updateDevice, renderStateComparison, emit.
  inv_split;
    try first [ apply inv_toStrM | apply inv_getM
              | apply inv_renderFlatState | apply inv_renderDevice ];
    apply inv_modify; intros s0 H; cbv beta;
    rewrite ?Ht, ?Hd, ?Hl, ?Hc, ?Ha; exact H.
Qed.

(** X7.  [loadDevice] never throws.  When the SDK resolves to a
    non-empty array, the pair held becomes the [{spec, status}] of its
    first blueprint, the others being ignored; when the request fails,
    resolves to nothing or to an empty array, or when the first blueprint
    is [null], the pair held is left as it was.  The socket, the connecting
    flag and the socket count are never touched. *)
Theorem snapshot_uses_first_blueprint (outcome : Blueprints) (s : State) :
  let r := loadDevice host outcome s in
  fst r = Normal tt
  /\ currentDevice (snd r)
     = match outcome with
       | resolved (Some (bp :: _)) =>
           match get bp "spec" with
           | Some spec => Some (spec, optGet bp "status")
           | None => currentDevice s
           end
       | _ => currentDevice s
       end
  /\ ws (snd r) = ws s
  /\ wsConnecting (snd r) = wsConnecting s
  /\ sockets (snd r) = sockets s.
Proof.
  cbv zeta. split; [apply loadDevice_completes|].
  split; [|repeat split; apply loadDevice_frame; reflexivity].
  unfold loadDevice.
  change (snd (tryCatch ?b ?h s)) with (exec (tryCatch b h) s).
  rewrite (exec_tryCatch_frame currentDevice).
  2:{ intros e x. unfold renderDefaultState.
      inv_split; first [ apply inv_renderDevice
                       | apply inv_modify; intros; assumption ]. }
  unfold exec.
  destruct outcome as [e | [[| bp rest] |]]; try reflexivity.
  unfold bind at 1. unfold ret at 1.
  unfold bind at 1. unfold getM at 1.
  destruct (get bp "spec") as [spec|] eqn:Es; [|reflexivity].
  unfold ret at 1.
  unfold bind at 1. unfold getM at 1.
  rewrite (get_optGet _ _ _ Es "status"). unfold ret at 1.
  apply updateDevice_currentDevice.
Qed.

End SnapshotFacts.

(* ================================================================== *)
(** * More on the connection bridge *)
(* ================================================================== *)

Section RelayFacts.

Import Proxy WebSocket Relay.

Variable Buffer : Type.
Variable toString : Buffer -> string.
Variable reconcilerUrl : string.

Lemma sentToClient_cons (c : Call Buffer) (cs : list (Call Buffer)) :
  sentToClient (c :: cs)
  = (sentToClient cs ++ match c with clientWs_send m => [m] | _ => [] end)%list.
Proof.
  unfold sentToClient. cbn [rev]. rewrite flat_map_app. cbn [flat_map].
  rewrite app_nil_r. reflexivity.
Qed.

Lemma sentToReconciler_cons (c : Call Buffer) (cs : list (Call Buffer)) :
  sentToReconciler (c :: cs)
  = (sentToReconciler cs ++ match c with reconcilerWs_send d => [d] | _ => [] end)%list.
Proof.
  unfold sentToReconciler. cbn [rev]. rewrite flat_map_app. cbn [flat_map].
  rewrite app_nil_r. reflexivity.
Qed.

Lemma handle_forwards (b : Bridge Buffer) (turn : Sockets * Event Buffer) :
  attached b = true ->
  setupPending b = false ->
  let b' := handle toString reconcilerUrl b turn in
  sentToClient (calls b')
  = (sentToClient (calls b) ++ fromReconciler toString [turn])%list
  /\ sentToReconciler (calls b')
     = (sentToReconciler (calls b) ++ fromClient [turn])%list.
Proof.
  intros Ha Hp. destruct b as [pending att active cs]. cbn in Ha, Hp. subst.
  destruct turn as [io ev]. unfold fromReconciler, fromClient, handle.
  destruct ev;
    cbn [fst snd listener attached setupPending pingInterval calls flat_map app];
    unfold ping, call, do_clearInterval;
    try destruct active; try destruct (isOPEN (reconcilerWs io));
    try destruct (isOPEN (clientWs io));
    cbn [fst snd attached setupPending pingInterval calls];
    rewrite ?sentToClient_cons, ?sentToReconciler_cons, ?app_nil_r;
    split; reflexivity.
Qed.

(** X8.  An established bridge forwards in order and verbatim.  The text
    frames sent to the browser are, in order, [data.toString()] of the
    upstream frames that arrived while the browser's socket was [OPEN];
    the frames sent upstream are, in order and unchanged, the browser's
    frames that arrived while the upstream socket was [OPEN].  Nothing is
    sent twice, reordered or made up, whatever else happens in between. *)
Theorem bridge_forwards_in_order
        (turns : list (Sockets * Event Buffer)) (b : Bridge Buffer) :
  attached b = true ->
  setupPending b = false ->
  sentToClient (calls (run toString reconcilerUrl turns b))
  = (sentToClient (calls b) ++ fromReconciler toString turns)%list
  /\ sentToReconciler (calls (run toString reconcilerUrl turns b))
     = (sentToReconciler (calls b) ++ fromClient turns)%list.
Proof.
  revert b. induction turns as [| turn turns IH]; intros b Ha Hp.
  - cbn. rewrite !app_nil_r. split; reflexivity.
  - rewrite bridge_run_cons.
    destruct (handle_established Buffer toString reconcilerUrl b turn Ha Hp)
      as (Ha' & Hp' & _).
    destruct (handle_forwards b turn Ha Hp) as (H1 & H2).
    destruct (IH _ Ha' Hp') as (I1 & I2).
    rewrite I1, I2, H1, H2. unfold fromReconciler, fromClient.
    cbn [flat_map]. rewrite !app_nil_r, <- !app_assoc. split; reflexivity.
Qed.

(** A bridge whose setup was skipped hears nothing. *)
Lemma run_never_attached (turns : list (Sockets * Event Buffer)) (b : Bridge Buffer) :
  attached b = false -> setupPending b = false ->
  run toString reconcilerUrl turns b = b.
Proof.
  intros Ha Hp. induction turns as [| [io ev] turns IH]; [reflexivity|].
  rewrite bridge_run_cons.
  replace (handle toString reconcilerUrl b (io, ev)) with b; [exact IH|].
  unfold handle. cbn [fst snd]. rewrite Ha, Hp. destruct ev; reflexivity.
Qed.

(** While the setup timer is pending, the events of the browser's socket
    have no listener. *)
Lemma run_before_setup (turns : list (Sockets * Event Buffer)) (b : Bridge Buffer) :
  attached b = false ->
  forallb (fun t => negb (is_setup_timer t)) turns = true ->
  run toString reconcilerUrl turns b = b.
Proof.
  intros Ha. induction turns as [| [io ev] turns IH]; intros H; [reflexivity|].
  cbn [forallb] in H. apply andb_prop in H. destruct H as [H1 H2].
  rewrite bridge_run_cons.
  replace (handle toString reconcilerUrl b (io, ev)) with b; [exact (IH H2)|].
  unfold handle. cbn [fst snd]. rewrite Ha.
  destruct ev; try reflexivity. discriminate H1.
Qed.

Lemma before_setup_no_timer (turns : list (Sockets * Event Buffer)) :
  forallb before_setup turns = true ->
  forallb (fun t => negb (is_setup_timer t)) turns = true.
Proof.
  induction turns as [| t turns IH]; intros H; [reflexivity|].
  cbn [forallb] in *. apply andb_prop in H. destruct H as [H1 H2].
  unfold before_setup in H1. apply andb_prop in H1. destruct H1 as [H1 _].
  rewrite H1, (IH H2). reflexivity.
Qed.

(** X9.  A phantom connection never reaches the reconciler.  If the
    browser's socket is not [OPEN] when [setupConnection] runs (at once,
    or when the 200 ms timer of a Safari connection fires), no upstream
    socket is created, no interval is set and no listener is registered.
    As long as the browser's socket raises no [error] event, which would
    then find no listener, no event makes the bridge do anything: every
    call it ever makes is console output or the setup timer. *)
Theorem phantom_connection_opens_nothing
        (userAgent : option string) (io io' : Sockets)
        (pre post : list (Sockets * Event Buffer)) :
  let b := connection reconcilerUrl userAgent io in
  (setupPending b = false ->
   isOPEN (clientWs io) = false ->
   forallb (fun t => negb (is_client_error t)) post = true ->
   attached b = false
   /\ run toString reconcilerUrl post b = b /\ Forall inert (calls b))
  /\ (setupPending b = true ->
      forallb before_setup pre = true ->
      isOPEN (clientWs io') = false ->
      forallb (fun t => negb (is_client_error t)) post = true ->
      let b' := run toString reconcilerUrl (pre ++ [(io', setup_timer)]) b in
      attached b' = false
      /\ run toString reconcilerUrl post b' = b'
      /\ Forall inert (calls b')).
Proof.
  cbv zeta. unfold connection.
  set (ua := match userAgent with
             | Some ua => if (ua =? "")%string then "unknown" else ua
             | None => "unknown"
             end).
  destruct (includes ua "Safari" && negb (includes ua "Chrome")); cbn [calls].
  - split; [intros H; discriminate H|]. intros _ Hpre0 Hio _.
    pose proof (before_setup_no_timer pre Hpre0) as Hpre.
    match goal with
    | |- context [run _ _ (pre ++ _)%list ?b0] =>
        rewrite (bridge_run_app Buffer toString reconcilerUrl pre _ b0),
                (run_before_setup pre b0 eq_refl Hpre)
    end.
    rewrite bridge_run_cons.
    match goal with
    | |- context [handle _ _ ?b0 (io', setup_timer)] =>
        replace (handle toString reconcilerUrl b0 (io', setup_timer))
          with (mkBridge false false false
                  (console_log "  Browser disconnected before setup, skipping"
                   :: calls b0))
          by (unfold handle, setupConnection; cbn [fst snd setupPending];
              rewrite Hio; reflexivity)
    end.
    cbn [run fold_left].
    split; [reflexivity|].
    split; [apply run_never_attached; reflexivity | cbn; repeat constructor].
  - split; [|unfold setupConnection; destruct (isOPEN (clientWs io));
             intros H; discriminate H].
    intros _ Hio _. unfold setupConnection. rewrite Hio. cbn [negb].
    split; [reflexivity|].
    split; [apply run_never_attached; reflexivity | cbn; repeat constructor].
Qed.

(** What holds of every bridge [connection] can lead to: while the setup
    timer is pending nothing has been created; once it is not, at most one
    upstream socket has been; and there are as many intervals as upstream
    sockets. *)
Lemma handle_one_upstream (b : Bridge Buffer) (turn : Sockets * Event Buffer) :
  (setupPending b = true -> attached b = false) ->
  (attached b = false -> count is_new_WebSocket b = 0) ->
  count is_new_WebSocket b <= 1 ->
  count is_setInterval b = count is_new_WebSocket b ->
  let b' := handle toString reconcilerUrl b turn in
  (setupPending b' = true -> attached b' = false)
  /\ (attached b' = false -> count is_new_WebSocket b' = 0)
  /\ count is_new_WebSocket b' <= 1
  /\ count is_setInterval b' = count is_new_WebSocket b'.
Proof.
  destruct b as [pending att active cs]. destruct turn as [io ev].
  unfold count. cbn [setupPending attached calls]. intros H1 H2 H3 H4.
  destruct ev; unfold handle; cbn [fst snd setupPending attached pingInterval calls];
    destruct pending; destruct att;
    try (specialize (H1 eq_refl); discriminate H1);
    try specialize (H2 eq_refl);
    unfold setupConnection, listener, ping, call, do_clearInterval;
    try destruct active; try destruct (isOPEN (reconcilerWs io));
    try destruct (isOPEN (clientWs io));
    cbn [negb setupPending attached pingInterval calls filter length
         is_new_WebSocket is_setInterval];
    repeat split; intros; try discriminate; try lia.
Qed.

Lemma run_one_upstream (turns : list (Sockets * Event Buffer)) (b : Bridge Buffer) :
  (setupPending b = true -> attached b = false) ->
  (attached b = false -> count is_new_WebSocket b = 0) ->
  count is_new_WebSocket b <= 1 ->
  count is_setInterval b = count is_new_WebSocket b ->
  count is_new_WebSocket (run toString reconcilerUrl turns b) <= 1
  /\ count is_setInterval (run toString reconcilerUrl turns b)
     = count is_new_WebSocket (run toString reconcilerUrl turns b).
Proof.
  revert b. induction turns as [| turn turns IH]; intros b H1 H2 H3 H4.
  - split; assumption.
  - rewrite bridge_run_cons.
    destruct (handle_one_upstream b turn H1 H2 H3 H4) as (G1 & G2 & G3 & G4).
    apply IH; assumption.
Qed.

(** X10.  One accepted browser connection opens at most one upstream
    socket, whatever events follow, and sets exactly one keepalive
    interval for it. *)
Theorem at_most_one_upstream_socket
        (userAgent : option string) (io : Sockets)
        (turns : list (Sockets * Event Buffer)) :
  let b := run toString reconcilerUrl turns (connection reconcilerUrl userAgent io) in
  count is_new_WebSocket b <= 1
  /\ count is_setInterval b = count is_new_WebSocket b.
Proof.
  cbv zeta. apply run_one_upstream;
    unfold connection, setupConnection, count;
    destruct (includes _ "Safari" && negb (includes _ "Chrome"));
    try destruct (isOPEN (clientWs io));
    cbn; intros; try discriminate; try lia.
Qed.

Lemma handle_no_ping (b : Bridge Buffer) (turn : Sockets * Event Buffer) :
  attached b = true -> setupPending b = false -> pingInterval b = false ->
  let b' := handle toString reconcilerUrl b turn in
  attached b' = true /\ setupPending b' = false /\ pingInterval b' = false
  /\ count is_ping b' = count is_ping b.
Proof.
  intros Ha Hp Hi. destruct b as [pending att active cs]. cbn in Ha, Hp, Hi. subst.
  destruct turn as [io ev]. unfold count.
  destruct ev; cbn; unfold call, do_clearInterval;
    try destruct (isOPEN (reconcilerWs io));
    try destruct (isOPEN (clientWs io)); cbn;
    repeat split.
Qed.

Lemma run_no_ping (turns : list (Sockets * Event Buffer)) (b : Bridge Buffer) :
  attached b = true -> setupPending b = false -> pingInterval b = false ->
  count is_ping (run toString reconcilerUrl turns b) = count is_ping b.
Proof.
  revert b. induction turns as [| turn turns IH]; intros b Ha Hp Hi; [reflexivity|].
  rewrite bridge_run_cons.
  destruct (handle_no_ping b turn Ha Hp Hi) as (Ha' & Hp' & Hi' & Hc).
  rewrite IH by assumption. exact Hc.
Qed.

(** X11.  After a [close] event of either socket the bridge sends no more
    keepalive pings: the pings of a whole run are those sent before the
    first [close] event was handled. *)
Theorem no_ping_after_close
        (pre post : list (Sockets * Event Buffer)) (closing : Sockets * Event Buffer)
        (b : Bridge Buffer) :
  attached b = true ->
  setupPending b = false ->
  is_close_event closing = true ->
  count is_ping (run toString reconcilerUrl (pre ++ closing :: post) b)
  = count is_ping (run toString reconcilerUrl pre b).
Proof.
  intros Ha Hp Hc. rewrite bridge_run_app, bridge_run_cons.
  assert (Hpre : attached (run toString reconcilerUrl pre b) = true
                 /\ setupPending (run toString reconcilerUrl pre b) = false).
  { clear Hc. revert b Ha Hp. induction pre as [| t pre IH]; intros b Ha Hp.
    - split; assumption.
    - rewrite bridge_run_cons.
      destruct (handle_established Buffer toString reconcilerUrl b t Ha Hp)
        as (Ha' & Hp' & _).
      apply IH; assumption. }
  destruct Hpre as [Ha1 Hp1].
  set (b1 := run toString reconcilerUrl pre b) in *.
  destruct (handle_established Buffer toString reconcilerUrl b1 closing Ha1 Hp1)
    as (Ha2 & Hp2 & _ & _ & _ & Hi2).
  rewrite Hc in Hi2. cbn [negb] in Hi2. rewrite andb_false_r in Hi2.
  rewrite run_no_ping by assumption.
  destruct b1 as [pending att active cs]. cbn in Ha1, Hp1. subst.
  destruct closing as [io ev]. destruct ev; try discriminate Hc; reflexivity.
Qed.

End RelayFacts.

(* ================================================================== *)
(** * The configuration endpoint and the setup script *)
(* ================================================================== *)

Section ServerFacts.

Import Server.

Lemma split_colon_free (h : string) :
  colon_free h = true -> split colon h = [h].
Proof.
  induction h as [| c h IH]; intros H; [reflexivity|].
  cbn [colon_free] in H. apply andb_prop in H. destruct H as [Hc Hh].
  cbn [split]. apply negb_true_iff in Hc. rewrite Hc, (IH Hh). reflexivity.
Qed.

Lemma split_at_colon (h rest : string) :
  colon_free h = true ->
  split colon (h ++ String colon rest) = h :: split colon rest.
Proof.
  induction h as [| c h IH]; intros H.
  - cbn [append split]. rewrite Ascii.eqb_refl. reflexivity.
  - cbn [colon_free] in H. apply andb_prop in H. destruct H as [Hc Hh].
    cbn [append split]. apply negb_true_iff in Hc. rewrite Hc, (IH Hh). reflexivity.
Qed.

(** X12.  The WebSocket URL the configuration endpoint hands out follows
    the request's own [Host] header: for a header [h:p] it is
    [ws://h:p/ws]; when the header has no port (or an empty one) the
    server's own port is used; without a header the host is [localhost].
    Only the first two colon-separated parts of the header are used, what
    follows a second colon is ignored.  The URL is never empty: on a page
    whose configuration holds it, a call of [connectWebSocket] that the
    guard lets through passes the missing-URL check and constructs a
    socket for exactly that URL, if the constructor accepts it. *)
Theorem config_url_follows_host_header (configPort h p rest : string) :
  colon_free h = true ->
  colon_free p = true ->
  h <> "" ->
  reconcilerWsUrl configPort (Some (h ++ ":" ++ p))
  = "ws://" ++ h ++ ":" ++ (if String.eqb p "" then configPort else p) ++ "/ws"
  /\ reconcilerWsUrl configPort (Some (h ++ ":" ++ p ++ ":" ++ rest))
     = reconcilerWsUrl configPort (Some (h ++ ":" ++ p))
  /\ reconcilerWsUrl configPort (Some h) = "ws://" ++ h ++ ":" ++ configPort ++ "/ws"
  /\ reconcilerWsUrl configPort None = "ws://localhost:" ++ configPort ++ "/ws"
  /\ (forall hostHeader,
         truthy (JStr (reconcilerWsUrl configPort hostHeader)) = true)
  /\ (forall hostHeader host readyState s,
         App.reconcilerWsUrl s = JStr (reconcilerWsUrl configPort hostHeader) ->
         App.wsConnecting s = false ->
         (forall sock, App.ws s = Some sock ->
                       WebSocket.isOPEN (readyState sock) = false) ->
         App.webSocketRejects host (App.reconcilerWsUrl s) = None ->
         App.trace (App.exec (App.connectWebSocket host readyState) s)
         = App.setTimeout (App.timers s) App.connectTimeout 1500%N
           :: App.new_WebSocket (App.sockets s)
                (JStr (reconcilerWsUrl configPort hostHeader))
           :: App.console_log "Connecting to WebSocket:" :: App.trace s).
Proof.
  intros Hh Hp Hne.
  assert (Hpage : forall hostHeader host readyState s,
           App.reconcilerWsUrl s = JStr (reconcilerWsUrl configPort hostHeader) ->
           App.wsConnecting s = false ->
           (forall sock, App.ws s = Some sock ->
                         WebSocket.isOPEN (readyState sock) = false) ->
           App.webSocketRejects host (App.reconcilerWsUrl s) = None ->
           App.trace (App.exec (App.connectWebSocket host readyState) s)
           = App.setTimeout (App.timers s) App.connectTimeout 1500%N
             :: App.new_WebSocket (App.sockets s)
                  (JStr (reconcilerWsUrl configPort hostHeader))
             :: App.console_log "Connecting to WebSocket:" :: App.trace s).
  { intros hostHeader host readyState s Hurl Hc Ho Hr.
    assert (Hu : truthy (App.reconcilerWsUrl s) = true)
      by (rewrite Hurl; reflexivity).
    unfold App.exec.
    rewrite (connectWebSocket_attempt host readyState s Hc Ho Hu Hr).
    cbn [snd]. rewrite <- Hurl. reflexivity. }
  revert Hpage.
  assert (Hhe : String.eqb h "" = false) by (apply String.eqb_neq; exact Hne).
  assert (E1 : split colon (h ++ ":" ++ p) = [h; p]).
  { change (h ++ ":" ++ p) with (h ++ String colon p).
    rewrite (split_at_colon h p Hh), (split_colon_free p Hp). reflexivity. }
  assert (E2 : exists tail, split colon (h ++ ":" ++ p ++ ":" ++ rest) = h :: p :: tail).
  { change (h ++ ":" ++ p ++ ":" ++ rest) with (h ++ String colon (p ++ String colon rest)).
    rewrite (split_at_colon h _ Hh), (split_at_colon p rest Hp).
    eexists. reflexivity. }
  destruct E2 as [tail E2].
  unfold reconcilerWsUrl, browserHost, browserPort.
  rewrite E1, E2, (split_colon_free h Hh), Hhe.
  intros Hpage. repeat split. exact Hpage.
Qed.

Lemma optGet_or_else_empty (v : jsval) (k : string) :
  optGet (or_else v (JObj [])) k = optGet v k.
Proof.
  unfold or_else. destruct (truthy v) eqn:E; [reflexivity|].
  destruct v as [| | b | f | s |  |]; try discriminate E; reflexivity.
Qed.

(** X13.  The state the setup script prints for a blueprint and the sync
    indicator the page shows for the same blueprint agree, but for one
    case.  Without a status both say so ("no status", [?]).  With a status
    that has keys, "synced" goes with [=] and "out-of-sync" with the
    pending arrow.  With a status that has no keys (an empty object, for
    one) the script still prints "no status", while the page compares
    versions and never shows [?]. *)
Theorem setup_script_state_vs_indicator (bpSpec bpStatus : jsval) :
  (truthy bpStatus = false ->
   deviceState bpSpec bpStatus = "no status"
   /\ App.syncIndicator bpSpec bpStatus = Ledger.unknown)
  /\ (truthy bpStatus = true -> hasKeys bpStatus = true ->
      (deviceState bpSpec bpStatus = "synced"
       <-> App.syncIndicator bpSpec bpStatus = Ledger.synced)
      /\ (deviceState bpSpec bpStatus = "out-of-sync"
          <-> App.syncIndicator bpSpec bpStatus = Ledger.pending))
  /\ (truthy bpStatus = true -> hasKeys bpStatus = false ->
      deviceState bpSpec bpStatus = "no status"
      /\ App.syncIndicator bpSpec bpStatus <> Ledger.unknown).
Proof.
  unfold deviceState, App.syncIndicator. cbv zeta.
  rewrite optGet_or_else_empty. unfold or_else.
  split; [|split]; intros Ht; rewrite Ht; cbn [negb andb].
  - split; reflexivity.
  - intros Hk. rewrite Hk.
    destruct (strict_eq (optGet bpSpec "appVersion") (optGet bpStatus "appVersion"));
      repeat split; intros H; try reflexivity; discriminate H.
  - intros Hk. rewrite Hk. split; [reflexivity|].
    destruct (strict_eq (optGet bpSpec "appVersion") (optGet bpStatus "appVersion"));
      intros H; discriminate H.
Qed.

End ServerFacts.

(* ================================================================== *)
(** * The blood pressure classes of the patient page *)
(* ================================================================== *)

Section BloodPressure.

Import Medical.

Open Scope Z_scope.

(** X16.  The regions of [getBpStatus], for integer readings.  The tests
    are taken in order, so that a reading is "Critical" only when the
    systolic value is at least 140 and the diastolic at least 90 besides
    reaching 180 or 120: a systolic of 180 or more with a diastolic of 89
    or less is "High Stage 1".  The colour is the red of the critical
    class exactly when systolic is at least 140 and diastolic at least
    90. *)
Theorem blood_pressure_regions (sys dia : Z) :
  let st := getBpStatus (Some sys) (Some dia) in
  (label st = "Low" <-> sys < 90 \/ dia < 60)
  /\ (label st = "Normal" <-> 90 <= sys <= 120 /\ 60 <= dia <= 80)
  /\ (label st = "Elevated" <-> 121 <= sys <= 129 /\ 60 <= dia <= 80)
  /\ (label st = "High Stage 1"
      <-> 90 <= sys /\ 60 <= dia /\ (130 <= sys \/ 81 <= dia)
          /\ (sys <= 139 \/ dia <= 89))
  /\ (label st = "High Stage 2" <-> 140 <= sys < 180 /\ 90 <= dia < 120)
  /\ (label st = "Critical" <-> 140 <= sys /\ 90 <= dia /\ (180 <= sys \/ 120 <= dia))
  /\ (getBpColor (cls st) = "#ef4444" <-> 140 <= sys /\ 90 <= dia).
Proof.
  cbv zeta. unfold getBpStatus, lt, le, ge.
  destruct (Z.ltb_spec sys 90); destruct (Z.ltb_spec dia 60);
    destruct (Z.leb_spec sys 120); destruct (Z.leb_spec dia 80);
    destruct (Z.leb_spec sys 129); destruct (Z.leb_spec sys 139);
    destruct (Z.leb_spec dia 89); destruct (Z.leb_spec 180 sys);
    destruct (Z.leb_spec 120 dia);
    try lia;
    cbn [orb andb label cls];
    repeat split; intros; try discriminate; try lia; try reflexivity.
Qed.

Close Scope Z_scope.

End BloodPressure.

(* ================================================================== *)
(** * The further statements at concrete inputs *)
(* ================================================================== *)

Lemma updateDevice_same_desired_version_witness :
  let s := App.exec (App.ws_onmessage Demo.chrome
                       (App.Value (Demo.update "d1" "2.0" "1.0"))) Demo.loaded in
  optGet match App.currentDevice s with
         | Some d => fst d
         | None => JUndefined
         end "appVersion" = JStr "2.0"
  /\ optGet (Demo.version "2.0") "appVersion" = JStr "2.0"
  /\ exists new,
      length new <= 1
      /\ Forall (fun e => App.type e = "reconciling") new
      /\ Ledger.logged new (App.activityLog s)
           (App.activityLog
              (snd (App.updateDevice Demo.chrome (Demo.version "2.0")
                                     (Demo.version "1.0") s))).
Proof.
  intros s.
  assert (Hold : optGet match App.currentDevice s with
                        | Some d => fst d
                        | None => JUndefined
                        end "appVersion" = JStr "2.0") by reflexivity.
  assert (Hnew : optGet (Demo.version "2.0") "appVersion" = JStr "2.0")
    by reflexivity.
  split; [exact Hold|]. split; [exact Hnew|].
  exact (proj2 (updateDevice_same_desired_version Demo.chrome (Demo.version "2.0")
                  (Demo.version "1.0") s) "2.0" Hold Hnew).
Defined.

Lemma pageshow_forces_fresh_attempt_witness :
  truthy (App.reconcilerWsUrl Demo.connecting) = true
  /\ App.webSocketRejects Demo.chrome (App.reconcilerWsUrl Demo.connecting) = None
  /\ App.ws (App.step Demo.chrome Demo.connecting
               (fun _ => CONNECTING, App.PageShow true))
     = Some (App.sockets Demo.connecting).
Proof.
  assert (Hu : truthy (App.reconcilerWsUrl Demo.connecting) = true) by reflexivity.
  assert (Hr : App.webSocketRejects Demo.chrome (App.reconcilerWsUrl Demo.connecting)
               = None) by reflexivity.
  split; [exact Hu|]. split; [exact Hr|].
  exact (proj1 (pageshow_forces_fresh_attempt Demo.chrome (fun _ => CONNECTING)
                  Demo.connecting Hu Hr)).
Defined.

Lemma no_reload_unless_safari_witness :
  App.isSafari Demo.chrome = false
  /\ Ledger.count Ledger.is_reload
       (App.trace (App.run Demo.chrome
                     [(fun _ => CONNECTING, App.Timer App.connectTimeout);
                      (fun _ => CLOSED, App.Close 0 1006%N)]
                     Demo.connecting))
     = Ledger.count Ledger.is_reload (App.trace Demo.connecting).
Proof.
  assert (H : App.isSafari Demo.chrome = false) by reflexivity.
  split; [exact H|].
  exact (no_reload_unless_safari Demo.chrome
           [(fun _ => CONNECTING, App.Timer App.connectTimeout);
            (fun _ => CLOSED, App.Close 0 1006%N)]
           Demo.connecting H).
Defined.

Lemma bridge_forwards_in_order_witness :
  Proxy.attached Demo.established = true
  /\ Proxy.setupPending Demo.established = false
  /\ Relay.sentToClient
       (Proxy.calls
          (Proxy.run (fun d => d) "ws://localhost:46701"
             [(Demo.bothOpen, Proxy.reconciler_message "one");
              (Demo.bothOpen, Proxy.ping_timer);
              (Demo.bothOpen, Proxy.reconciler_message "two")]
             Demo.established))
     = (Relay.sentToClient (Proxy.calls Demo.established)
        ++ Relay.fromReconciler (fun d => d)
             [(Demo.bothOpen, Proxy.reconciler_message "one");
              (Demo.bothOpen, Proxy.ping_timer);
              (Demo.bothOpen, Proxy.reconciler_message "two")])%list.
Proof.
  assert (Ha : Proxy.attached Demo.established = true) by reflexivity.
  assert (Hp : Proxy.setupPending Demo.established = false) by reflexivity.
  split; [exact Ha|]. split; [exact Hp|].
  exact (proj1 (bridge_forwards_in_order string (fun d => d) "ws://localhost:46701"
                  _ Demo.established Ha Hp)).
Defined.

Lemma phantom_connection_opens_nothing_witness :
  forallb (Relay.before_setup (Buffer := string))
    [(Proxy.mkSockets CLOSED CLOSED, Proxy.client_close 1001%N "")] = true
  /\ forallb (fun t => negb (Relay.is_client_error (Buffer := string) t))
       [(Proxy.mkSockets CLOSED CLOSED, Proxy.client_close 1001%N "")] = true
  /\ (Proxy.setupPending
     (Proxy.connection (Buffer := string) "ws://localhost:46701"
        (Some "Mozilla/5.0 Chrome/120.0 Safari/537.36")
        (Proxy.mkSockets CLOSED CLOSED)) = false
   /\ isOPEN (Proxy.clientWs (Proxy.mkSockets CLOSED CLOSED)) = false
   /\ Proxy.run (fun d => d) "ws://localhost:46701"
        [(Proxy.mkSockets CLOSED CLOSED, Proxy.client_close 1001%N "")]
        (Proxy.connection "ws://localhost:46701"
           (Some "Mozilla/5.0 Chrome/120.0 Safari/537.36")
           (Proxy.mkSockets CLOSED CLOSED))
      = Proxy.connection "ws://localhost:46701"
          (Some "Mozilla/5.0 Chrome/120.0 Safari/537.36")
          (Proxy.mkSockets CLOSED CLOSED))
  /\ (Proxy.setupPending
        (Proxy.connection (Buffer := string) "ws://localhost:46701"
           (Some "Mozilla/5.0 Version/17.0 Safari/605.1.15") Demo.bothOpen) = true
      /\ isOPEN (Proxy.clientWs (Proxy.mkSockets CLOSED CLOSED)) = false
      /\ Forall Relay.inert
           (Proxy.calls
              (Proxy.run (fun d => d) "ws://localhost:46701"
                 ([(Proxy.mkSockets CLOSED CLOSED, Proxy.client_close 1001%N "")]
                  ++ [(Proxy.mkSockets CLOSED CLOSED, Proxy.setup_timer)])%list
                 (Proxy.connection "ws://localhost:46701"
                    (Some "Mozilla/5.0 Version/17.0 Safari/605.1.15")
                    Demo.bothOpen)))).
Proof.
  assert (H1 : Proxy.setupPending
                 (Proxy.connection (Buffer := string) "ws://localhost:46701"
                    (Some "Mozilla/5.0 Chrome/120.0 Safari/537.36")
                    (Proxy.mkSockets CLOSED CLOSED)) = false) by reflexivity.
  assert (H2 : isOPEN (Proxy.clientWs (Proxy.mkSockets CLOSED CLOSED)) = false)
    by reflexivity.
  assert (H3 : Proxy.setupPending
                 (Proxy.connection (Buffer := string) "ws://localhost:46701"
                    (Some "Mozilla/5.0 Version/17.0 Safari/605.1.15")
                    Demo.bothOpen) = true) by reflexivity.
  assert (Hpre : forallb (Relay.before_setup (Buffer := string))
                   [(Proxy.mkSockets CLOSED CLOSED, Proxy.client_close 1001%N "")]
                 = true) by reflexivity.
  assert (Hpost : forallb (fun t => negb (Relay.is_client_error (Buffer := string) t))
                    [(Proxy.mkSockets CLOSED CLOSED, Proxy.client_close 1001%N "")]
                  = true) by reflexivity.
  split; [exact Hpre|]. split; [exact Hpost|].
  split; (split; [assumption|]); (split; [assumption|]).
  - exact (proj1 (proj2 (proj1 (phantom_connection_opens_nothing string (fun d => d)
                           "ws://localhost:46701"
                           (Some "Mozilla/5.0 Chrome/120.0 Safari/537.36")
                           (Proxy.mkSockets CLOSED CLOSED) (Proxy.mkSockets CLOSED CLOSED)
                           [(Proxy.mkSockets CLOSED CLOSED, Proxy.client_close 1001%N "")]
                           [(Proxy.mkSockets CLOSED CLOSED, Proxy.client_close 1001%N "")])
                           H1 H2 Hpost))).
  - exact (proj2 (proj2 (proj2 (phantom_connection_opens_nothing string (fun d => d)
                    "ws://localhost:46701"
                    (Some "Mozilla/5.0 Version/17.0 Safari/605.1.15")
                    Demo.bothOpen (Proxy.mkSockets CLOSED CLOSED)
                    [(Proxy.mkSockets CLOSED CLOSED, Proxy.client_close 1001%N "")]
                    [(Proxy.mkSockets CLOSED CLOSED, Proxy.client_close 1001%N "")])
                    H3 Hpre H2 Hpost))).
Defined.

Lemma no_ping_after_close_witness :
  Proxy.attached Demo.established = true
  /\ Proxy.setupPending Demo.established = false
  /\ Proxy.is_close_event (Buffer := string)
       (Proxy.mkSockets CLOSED OPEN, Proxy.client_close 1001%N "") = true
  /\ Proxy.count Relay.is_ping
       (Proxy.run (fun d => d) "ws://localhost:46701"
          ([(Demo.bothOpen, Proxy.ping_timer)]
           ++ (Proxy.mkSockets CLOSED OPEN, Proxy.client_close 1001%N "")
           :: [(Proxy.mkSockets CLOSED OPEN, Proxy.ping_timer)])%list
          Demo.established)
     = Proxy.count Relay.is_ping
         (Proxy.run (fun d => d) "ws://localhost:46701"
            [(Demo.bothOpen, Proxy.ping_timer)] Demo.established).
Proof.
  assert (Ha : Proxy.attached Demo.established = true) by reflexivity.
  assert (Hp : Proxy.setupPending Demo.established = false) by reflexivity.
  assert (Hc : Proxy.is_close_event
                 (Buffer := string)
                 (Proxy.mkSockets CLOSED OPEN, Proxy.client_close 1001%N "") = true)
    by reflexivity.
  split; [exact Ha|]. split; [exact Hp|]. split; [exact Hc|].
  exact (no_ping_after_close string (fun d => d) "ws://localhost:46701"
           [(Demo.bothOpen, Proxy.ping_timer)]
           [(Proxy.mkSockets CLOSED OPEN, Proxy.ping_timer)]
           (Proxy.mkSockets CLOSED OPEN, Proxy.client_close 1001%N "")
           Demo.established Ha Hp Hc).
Defined.

Lemma config_url_follows_host_header_witness :
  Server.colon_free "localhost" = true
  /\ Server.colon_free "3000" = true
  /\ "localhost" <> ""
  /\ Server.reconcilerWsUrl "3000" (Some ("localhost" ++ ":" ++ "3000"))
     = "ws://" ++ "localhost" ++ ":"
       ++ (if String.eqb "3000" "" then "3000" else "3000") ++ "/ws"
  /\ App.trace (App.exec (App.connectWebSocket Demo.chrome (fun _ => CONNECTING))
                         Demo.loaded)
     = [App.setTimeout 0 App.connectTimeout 1500%N;
        App.new_WebSocket 0 (JStr "ws://localhost:3000/ws");
        App.console_log "Connecting to WebSocket:"].
Proof.
  assert (H1 : Server.colon_free "localhost" = true) by reflexivity.
  assert (H2 : Server.colon_free "3000" = true) by reflexivity.
  assert (H3 : "localhost" <> "") by discriminate.
  split; [exact H1|]. split; [exact H2|]. split; [exact H3|].
  pose proof (config_url_follows_host_header "3000" "localhost" "3000" "" H1 H2 H3)
    as (Hurl & _ & _ & _ & _ & Hpage).
  split; [exact Hurl|].
  exact (Hpage (Some "localhost:3000") Demo.chrome (fun _ => CONNECTING) Demo.loaded
               eq_refl eq_refl (fun sock H => eq_refl) eq_refl).
Defined.

Lemma setup_script_state_vs_indicator_witness :
  (truthy (JObj []) = true /\ Server.hasKeys (JObj []) = false
   /\ Server.deviceState (Demo.version "2.0") (JObj []) = "no status"
   /\ App.syncIndicator (Demo.version "2.0") (JObj []) <> Ledger.unknown)
  /\ (truthy JNull = false
      /\ Server.deviceState (Demo.version "2.0") JNull = "no status")
  /\ (truthy (Demo.version "2.0") = true /\ Server.hasKeys (Demo.version "2.0") = true
      /\ (Server.deviceState (Demo.version "2.0") (Demo.version "2.0") = "synced"
          <-> App.syncIndicator (Demo.version "2.0") (Demo.version "2.0")
              = Ledger.synced)).
Proof.
  assert (H1 : truthy (JObj []) = true) by reflexivity.
  assert (H2 : Server.hasKeys (JObj []) = false) by reflexivity.
  assert (H3 : truthy JNull = false) by reflexivity.
  assert (H4 : truthy (Demo.version "2.0") = true) by reflexivity.
  assert (H5 : Server.hasKeys (Demo.version "2.0") = true) by reflexivity.
  split; [|split].
  - split; [exact H1|]. split; [exact H2|].
    exact (proj2 (proj2 (setup_script_state_vs_indicator (Demo.version "2.0") (JObj [])))
             H1 H2).
  - split; [exact H3|].
    exact (proj1 (proj1 (setup_script_state_vs_indicator (Demo.version "2.0") JNull) H3)).
  - split; [exact H4|]. split; [exact H5|].
    exact (proj1 (proj1 (proj2 (setup_script_state_vs_indicator
                                  (Demo.version "2.0") (Demo.version "2.0"))) H4 H5)).
Defined.

Lemma no_socket_without_usable_url_witness :
  truthy (App.reconcilerWsUrl
            (App.mkState JUndefined None false None [] ("", "") 0 0 0 [])) = false
  /\ App.sockets
       (App.run Demo.chrome
          [(fun _ => CLOSED, App.Timer App.reconnect);
           (fun _ => CLOSED, App.PageShow true);
           (fun _ => CLOSED, App.Timer App.reconnect)]
          (App.mkState JUndefined None false None [] ("", "") 0 0 0 []))
     = App.sockets (App.mkState JUndefined None false None [] ("", "") 0 0 0 []).
Proof.
  assert (H : truthy (App.reconcilerWsUrl
                        (App.mkState JUndefined None false None [] ("", "") 0 0 0 []))
              = false) by reflexivity.
  split; [exact H|].
  exact (proj1 (proj2 (no_socket_without_usable_url Demo.chrome
                         [(fun _ => CLOSED, App.Timer App.reconnect);
                          (fun _ => CLOSED, App.PageShow true);
                          (fun _ => CLOSED, App.Timer App.reconnect)]
                         (App.mkState JUndefined None false None [] ("", "") 0 0 0 []))
                  (or_introl H))).
Defined.

Lemma stale_close_lets_second_socket_in_witness :
  truthy (App.reconcilerWsUrl Demo.connecting) = true
  /\ App.webSocketRejects Demo.chrome (App.reconcilerWsUrl Demo.connecting) = None
  /\ (forall sock : nat, isOPEN ((fun _ : nat => CONNECTING) sock) = false)
  /\ App.sockets
       (App.run Demo.chrome
          [(fun _ => CONNECTING, App.PageShow true);
           (fun _ => CONNECTING, App.Close 0 1005%N);
           (fun _ => CONNECTING, App.Timer App.reconnect)]
          Demo.connecting)
     = S (S (App.sockets Demo.connecting)).
Proof.
  assert (Hu : truthy (App.reconcilerWsUrl Demo.connecting) = true) by reflexivity.
  assert (Hr : App.webSocketRejects Demo.chrome (App.reconcilerWsUrl Demo.connecting)
               = None) by reflexivity.
  assert (Ho : forall sock : nat, isOPEN ((fun _ : nat => CONNECTING) sock) = false)
    by (intros sock; reflexivity).
  split; [exact Hu|]. split; [exact Hr|]. split; [exact Ho|].
  exact (proj1 (stale_close_lets_second_socket_in Demo.chrome (fun _ => CONNECTING)
                  Demo.connecting 0 1005%N Hu Hr Ho)).
Defined.
